(** * The physical network driver of LXD: lifecycle and cluster policy

    A shallow embedding of [lxd/network/driver_physical.go] (the second
    document of [src/unnamed/part_000]): [checkParentUse], [Create],
    [Delete], [Rename], [Start]/[start], [Stop] and [Update] of the
    [physical] driver; and of the node-local configuration of the package
    [node] (the first document): [Dump], [Replace], [Patch] and [update].

    The driver is stateful.  Its methods read and write the receiver
    ([n.config], [n.description]), the host's network interfaces and the
    cluster database, and they can fail at every call of a collaborator.
    The embedding threads one [State] through every method, in a small
    state monad, and returns Go's [error] results as [option error].

    The collaborators the driver calls ([VLANInterfaceCreate],
    [InterfaceRemove], [tx.UpdateNetwork], [n.common.update], ...) live in
    other packages.  They are taken as parameters, grouped in three
    interfaces; the properties proved below hold for every implementation,
    and the contracts a property depends on are stated as its hypotheses.
    A reference implementation, [Sim], instantiates them. *)

From stdpp Require Import base option list strings gmap fin_maps.
From Stdlib Require Import ZArith.

Open Scope string_scope.
Open Scope list_scope.
Open Scope Z_scope.

(** ** Data model *)

(** Go's [map[string]string].  Indexing a Go map at a missing key yields
    the zero value, the empty string. *)
Abbreviation StringMap := (gmap string string).

Definition get (m : StringMap) (k : string) : string := default "" (m !! k).

(** [error] values.  The driver builds errors with [fmt.Errorf] and
    [errors.Wrapf]; the collaborators return errors of their own. *)
Inductive fmtarg :=
| FString (s : string)
| FLink (name : string).

Inductive error :=
| External (msg : string)
| Errorf (format : string) (args : list fmtarg)
| Wrapf (cause : error) (format : string) (args : list fmtarg).

Global Instance fmtarg_eq_dec : EqDecision fmtarg.
Proof. solve_decision. Defined.

Global Instance error_eq_dec : EqDecision error.
Proof. solve_decision. Defined.

(** [fmt.Sprintf("%t", b)] *)
Definition Sprintf_t (b : bool) : string := if b then "true" else "false".

(** Modelled from the spec: [request.ClientType], the tag of a request;
    the spec (4.3) has two client types, [normal] and [notification]. *)
Inductive ClientType :=
| ClientTypeNormal
| ClientTypeNotification.

Global Instance ClientType_eq_dec : EqDecision ClientType.
Proof. solve_decision. Defined.

(** Modelled from the spec: [project.Default], the name of the default
    project. *)
Definition project_Default : string := "default".

(** Modelled from the spec: [api.NetworkStatusPending], the status of a
    record that is declared and not yet realized anywhere (4.2). *)
Definition NetworkStatusPending : string := "Pending".

(** Modelled from the spec: [shared.StringInSlice], whether a key is one
    of the changed keys. *)
Definition StringInSlice (key : string) (list : list string) : bool :=
  bool_decide (key ∈ list).

(** [api.NetworkPut] and [api.Network]; a [Network] embeds a [NetworkPut],
    so that [network.Config] is a field of it. *)
Module api.

Record NetworkPut := mkNetworkPut {
  Config : StringMap;
  Description : string;
}.

Record Network := mkNetwork {
  Put : NetworkPut;
  Name : string;
}.

End api.

Coercion api.Put : api.Network >-> api.NetworkPut.

(** [delete(newNetwork.Config, key)] *)
Definition NetworkPut_delete (key : string) (p : api.NetworkPut) : api.NetworkPut :=
  api.mkNetworkPut (delete key (api.Config p)) (api.Description p).

(** The receiver [n *physical]: the fields of the embedded [common] that
    the driver reads and writes.  Modelled from the spec: the struct
    [common] is declared in another file; [n_status] and [n_localStatus]
    are what [n.Status()] and [n.LocalStatus()] return, the status of the
    record cluster-wide and on this member (3, NetworkRecord). *)
Record physical := mkPhysical {
  n_id : Z;
  n_project : string;
  n_name : string;
  n_description : string;
  n_config : StringMap;
  n_status : string;
  n_localStatus : string;
}.

Definition set_config (c : StringMap) (n : physical) : physical :=
  mkPhysical (n_id n) (n_project n) (n_name n) (n_description n) c
             (n_status n) (n_localStatus n).

(** The result of [tx.GetCreatedNetworks]:
    [map[string]map[int64]api.Network], project name to network id to
    network. *)
Abbreviation ProjectNetworks := (gmap string (gmap Z api.Network)).

(** ** Collaborators *)

(** The host's network interfaces: [GetHostDevice], [VLANInterfaceCreate],
    [InterfaceRemove], [InterfaceExists] of the [network] package and
    [SetMTU] of [ip.Link]; [shared.IsTrue] reads a string-encoded boolean. *)
Class InterfaceController (Host : Type) := {
  GetHostDevice : string → string → string;
  VLANInterfaceCreate : string → string → string → bool → Host → Host * (bool * option error);
  InterfaceRemove : string → Host → Host * option error;
  InterfaceExists : string → Host → bool;
  SetMTU : string → string → Host → Host * option error;
  IsTrue : string → bool;
}.

(** The cluster database, [n.state.Cluster]: a read transaction around
    [tx.GetCreatedNetworks], a write transaction around
    [tx.UpdateNetwork], and the two warning calls. *)
Class ClusterStore (Cluster : Type) := {
  GetCreatedNetworks : Cluster → error + ProjectNetworks;
  UpdateNetwork : Z → string → StringMap → Cluster → Cluster * option error;
  UpsertWarningLocalNode : string → Z → error → Cluster → Cluster * option error;
  ResolveWarnings : string → Z → Cluster → Cluster * option error;
}.

(** The methods of the embedded [common] that [physical] calls.
    [configChanged] reads the receiver; [update] rewrites the receiver
    and the database; [IsUsed] reads the database;
    [notifyDependentNetworks] returns nothing. *)
Class Common (Host Cluster : Type) := {
  configChanged : physical → api.NetworkPut →
                  bool * list string * api.NetworkPut * option error;
  common_update : api.NetworkPut → string → ClientType →
                  physical → Cluster → (physical * Cluster) * option error;
  IsUsed : physical → Cluster → bool * option error;
  notifyDependentNetworks : list string → physical → Host → Cluster → Host * Cluster;
}.

(** ** State and calls *)

(** A call made by the driver, in the order made: its log lines (every
    method starts with one) and its calls of the collaborators that act on
    the host or on the database. *)
Inductive Call :=
| LogDebug (msg : string)
| LogWarn (msg : string)
| CallGetCreatedNetworks
| CallVLANInterfaceCreate (parent hostName vlan : string) (gvrp : bool)
| CallInterfaceRemove (hostName : string)
| CallSetMTU (name mtu : string)
| CallUpdateNetwork (id : Z) (description : string) (config : StringMap)
| CallUpsertWarning (project : string) (id : Z) (err : error)
| CallResolveWarnings (project : string) (id : Z)
| CallIsUsed
| CallCommonUpdate (newNetwork : api.NetworkPut) (targetNode : string) (clientType : ClientType)
| CallNotifyDependentNetworks (changedKeys : list string).

Record State (Host Cluster : Type) := mkState {
  net : physical;
  host : Host;
  cluster : Cluster;
  trace : list Call;
}.

Arguments mkState {Host Cluster}.
Arguments net {Host Cluster}.
Arguments host {Host Cluster}.
Arguments cluster {Host Cluster}.
Arguments trace {Host Cluster}.

(** The state monad of the driver's methods. *)
Definition M (Host Cluster : Type) (A : Type) : Type :=
  State Host Cluster → A * State Host Cluster.

Definition ret {Host Cluster A} (a : A) : M Host Cluster A := λ s, (a, s).

Definition bind {Host Cluster A B} (m : M Host Cluster A) (k : A → M Host Cluster B) :
    M Host Cluster B :=
  λ s, let '(a, s') := m s in k a s'.

Declare Scope driver_scope.
Delimit Scope driver_scope with drv.
Notation "x ← m ; k" := (bind m (λ x, k))
  (at level 20, m at level 100, k at level 200, only parsing) : driver_scope.
Notation "' x ← m ; k" := (bind m (λ x, k))
  (at level 20, x pattern, m at level 100, k at level 200, only parsing) : driver_scope.
Notation "m ;; k" := (bind m (λ _, k))
  (at level 100, k at level 200, only parsing, right associativity) : driver_scope.
Open Scope driver_scope.

Section Driver.
Context {Host Cluster : Type}.
Context `{!InterfaceController Host, !ClusterStore Cluster, !Common Host Cluster}.

Local Abbreviation M := (M Host Cluster).

(** *** Primitive steps *)

Definition record (c : Call) : M unit :=
  λ s, (tt, mkState (net s) (host s) (cluster s) (trace s ++ [c])).

Definition getNet : M physical := λ s, (net s, s).

Definition putNet (n : physical) : M unit :=
  λ s, (tt, mkState n (host s) (cluster s) (trace s)).

Definition onHost {A} (f : Host → Host * A) : M A :=
  λ s, let '(h, a) := f (host s) in (a, mkState (net s) h (cluster s) (trace s)).

Definition readHost {A} (f : Host → A) : M A := λ s, (f (host s), s).

Definition onCluster {A} (f : Cluster → Cluster * A) : M A :=
  λ s, let '(c, a) := f (cluster s) in (a, mkState (net s) (host s) c (trace s)).

Definition readCluster {A} (f : Cluster → A) : M A := λ s, (f (cluster s), s).

(** *** checkParentUse (lines 236-271) *)

(** The inner loop, [for _, network := range networks]: whether a network
    other than [name] uses our parent with a clashing VLAN. *)
Definition scanNetworks (name : string) (ourConfig : StringMap)
    (networks : gmap Z api.Network) : bool :=
  existsb (λ '(_, network),
    if bool_decide (api.Name network = name) then false (* our own DB record *)
    else if bool_decide (get (api.Config network) "parent" = get ourConfig "parent") then
      bool_decide (get (api.Config network) "vlan" = "") || bool_decide (get ourConfig "vlan" = "")
      || bool_decide (get (api.Config network) "vlan" = get ourConfig "vlan")
    else false)
    (map_to_list networks).

(** The outer loop, [for projectName, networks := range projectNetworks]. *)
Definition scanProjects (name : string) (ourConfig : StringMap)
    (projectNetworks : ProjectNetworks) : bool :=
  existsb (λ '(projectName, networks),
    if bool_decide (projectName ≠ project_Default) then false
    else scanNetworks name ourConfig networks)
    (map_to_list projectNetworks).

Definition checkParentUse (ourConfig : StringMap) : M (bool * option error) :=
  n ← getNet;
  record CallGetCreatedNetworks;;
  r ← readCluster GetCreatedNetworks;
  match r with
  | inl err => ret (false, Some (Wrapf err "Failed to load all networks" []))
  | inr projectNetworks => ret (scanProjects (n_name n) ourConfig projectNetworks, None)
  end.

(** *** Create (lines 275-290) *)

Definition Create (clientType : ClientType) : M (option error) :=
  record (LogDebug "Create");;
  n ← getNet;
  if bool_decide (clientType = ClientTypeNormal) then
    '(inUse, err) ← checkParentUse (n_config n);
    match err with
    | Some e => ret (Some e)
    | None =>
        if inUse then
          ret (Some (Errorf "Parent interface %q in use by another network"
                             [FString (get (n_config n) "parent")]))
        else ret None
    end
  else ret None.

(** *** The revert scope *)

(** Modelled from the spec: the [revert] package, a scope of undo closures
    (3, RevertAction): created empty, [Add] pushes a closure, [Fail] runs
    the closures pushed so far, the last one first, and [Success] empties
    the scope.  The closures are kept most recent first.  A method that
    starts with [defer revert.Fail()] runs [revert_Fail] at each of its
    returns. *)
Definition Reverter : Type := list (M unit).

Definition revert_New : Reverter := [].

Definition revert_Add (r : Reverter) (f : M unit) : Reverter := f :: r.

Definition revert_Success (r : Reverter) : Reverter := [].

Fixpoint revert_Fail (r : Reverter) : M unit :=
  match r with
  | [] => ret tt
  | f :: r' => f;; revert_Fail r'
  end.

(** *** Calls of the collaborators, recorded in the trace *)

Definition callVLANInterfaceCreate (parent hostName vlan : string) (gvrp : bool) :
    M (bool * option error) :=
  record (CallVLANInterfaceCreate parent hostName vlan gvrp);;
  onHost (VLANInterfaceCreate parent hostName vlan gvrp).

Definition callInterfaceRemove (hostName : string) : M (option error) :=
  record (CallInterfaceRemove hostName);;
  onHost (InterfaceRemove hostName).

Definition callSetMTU (name mtu : string) : M (option error) :=
  record (CallSetMTU name mtu);;
  onHost (SetMTU name mtu).

Definition callUpdateNetwork (id : Z) (description : string) (config : StringMap) :
    M (option error) :=
  record (CallUpdateNetwork id description config);;
  onCluster (UpdateNetwork id description config).

Definition callUpsertWarning (project : string) (id : Z) (err : error) : M (option error) :=
  record (CallUpsertWarning project id err);;
  onCluster (UpsertWarningLocalNode project id err).

Definition callResolveWarnings (project : string) (id : Z) : M (option error) :=
  record (CallResolveWarnings project id);;
  onCluster (ResolveWarnings project id).

Definition callIsUsed : M (bool * option error) :=
  record CallIsUsed;;
  λ s, (IsUsed (net s) (cluster s), s).

Definition callCommonUpdate (newNetwork : api.NetworkPut) (targetNode : string)
    (clientType : ClientType) : M (option error) :=
  record (CallCommonUpdate newNetwork targetNode clientType);;
  λ s, let '((n', c'), err) :=
         common_update newNetwork targetNode clientType (net s) (cluster s) in
       (err, mkState n' (host s) c' (trace s)).

Definition callNotifyDependentNetworks (changedKeys : list string) : M unit :=
  record (CallNotifyDependentNetworks changedKeys);;
  λ s, let '(h', c') := notifyDependentNetworks changedKeys (net s) (host s) (cluster s) in
       (tt, mkState (net s) h' c' (trace s)).

(** *** start (lines 335-373) *)

Definition start : M (option error) :=
  record (LogDebug "Start");;
  let revert := revert_New in
  n ← getNet;
  let hostName := GetHostDevice (get (n_config n) "parent") (get (n_config n) "vlan") in
  '(created, err) ← callVLANInterfaceCreate (get (n_config n) "parent") hostName
                      (get (n_config n) "vlan") (IsTrue (get (n_config n) "gvrp"));
  match err with
  | Some err => revert_Fail revert;; ret (Some err)
  | None =>
  let revert :=
    if created then revert_Add revert (callInterfaceRemove hostName;; ret tt) else revert in
  (* Set the MTU. *)
  err ← (if bool_decide (get (n_config n) "mtu" ≠ "")
         then callSetMTU hostName (get (n_config n) "mtu") else ret None);
  match err with
  | Some err =>
      revert_Fail revert;;
      ret (Some (Wrapf err "Failed setting MTU %q on %q"
                       [FString (get (n_config n) "mtu"); FString hostName]))
  | None =>
  (* Record if we created this device or not. *)
  err ← (if negb (IsTrue (get (n_config n) "volatile.last_state.created")) then
           putNet (set_config
                     (<["volatile.last_state.created" := Sprintf_t created]> (n_config n)) n);;
           n ← getNet;
           callUpdateNetwork (n_id n) (n_description n) (n_config n)
         else ret None);
  match err with
  | Some err => revert_Fail revert;; ret (Some (Wrapf err "Failed saving volatile config" []))
  | None =>
  let revert := revert_Success revert in
  revert_Fail revert;; ret None
  end end end.

(** *** Start (lines 318-333) *)

Definition Start : M (option error) :=
  err ← start;
  n ← getNet;
  match err with
  | Some e =>
      err' ← callUpsertWarning (n_project n) (n_id n) e;
      match err' with
      | Some _ => record (LogWarn "Failed to create warning")
      | None => ret tt
      end
  | None =>
      err' ← callResolveWarnings (n_project n) (n_id n);
      match err' with
      | Some _ => record (LogWarn "Failed to resolve warning")
      | None => ret tt
      end
  end;;
  ret err.

(** *** Stop (lines 376-409) *)

Definition Stop : M (option error) :=
  record (LogDebug "Stop");;
  n ← getNet;
  let hostName := GetHostDevice (get (n_config n) "parent") (get (n_config n) "vlan") in
  (* Only try and remove created VLAN interfaces.  [InterfaceExists] only reads
     the host, so that the short circuit of [&&] makes no difference. *)
  ex ← readHost (InterfaceExists hostName);
  err ← (if bool_decide (get (n_config n) "vlan" ≠ "")
            && IsTrue (get (n_config n) "volatile.last_state.created") && ex
         then callInterfaceRemove hostName else ret None);
  match err with
  | Some err => ret (Some err)
  | None =>
  (* Reset MTU back to 1500 if overridden in config. *)
  ex ← readHost (InterfaceExists hostName);
  err ← (if bool_decide (get (n_config n) "mtu" ≠ "") && ex
         then callSetMTU hostName "1500" else ret None);
  match err with
  | Some err =>
      ret (Some (Wrapf err "Failed setting MTU %q on %q" [FLink hostName; FString hostName]))
  | None =>
  (* Remove last state config. *)
  putNet (set_config (delete "volatile.last_state.created" (n_config n)) n);;
  n ← getNet;
  err ← callUpdateNetwork (n_id n) (n_description n) (n_config n);
  match err with
  | Some err => ret (Some (Wrapf err "Failed removing volatile config" []))
  | None => ret None
  end end end.

(** *** Update (lines 413-492) *)

Definition Update (newNetwork : api.NetworkPut) (targetNode : string)
    (clientType : ClientType) : M (option error) :=
  record (LogDebug "Update");;
  n ← getNet;
  let '(dbUpdateNeeeded, changedKeys, oldNetwork, err) := configChanged n newNetwork in
  match err with
  | Some err => ret (Some err)
  | None =>
  if negb dbUpdateNeeeded then ret None (* Nothing changed. *) else
  if bool_decide (n_status n = NetworkStatusPending)
     || bool_decide (n_localStatus n = NetworkStatusPending)
  then callCommonUpdate newNetwork targetNode clientType else
  let revert := revert_New in
  let hostNameChanged :=
    StringInSlice "vlan" changedKeys || StringInSlice "parent" changedKeys in
  (* We only need to check in the database once, not on every clustered node. *)
  err ← (if bool_decide (clientType = ClientTypeNormal) && hostNameChanged then
           '(isUsed, err) ← callIsUsed;
           if isUsed || bool_decide (err ≠ None) then
             ret (Some (Errorf "Cannot update network parent interface when in use" []))
           else
             '(inUse, err) ← checkParentUse (api.Config newNetwork);
             match err with
             | Some err => ret (Some err)
             | None =>
                 if inUse then
                   ret (Some (Errorf "Parent interface %q in use by another network"
                                     [FString (get (api.Config newNetwork) "parent")]))
                 else ret None
             end
         else ret None);
  match err with
  | Some err => revert_Fail revert;; ret (Some err)
  | None =>
  '(newNetwork, err) ←
     (if hostNameChanged then
        err ← Stop;
        match err with
        | Some err => ret (newNetwork, Some err)
        | None =>
            (* Remove the volatile last state from submitted new config if present. *)
            ret (NetworkPut_delete "volatile.last_state.created" newNetwork, None)
        end
      else ret (newNetwork, None));
  match err with
  | Some err => revert_Fail revert;; ret (Some err)
  | None =>
  (* Define a function which reverts everything. *)
  let revert :=
    revert_Add revert (callCommonUpdate oldNetwork targetNode clientType;; ret tt) in
  (* Apply changes to all nodes and database. *)
  err ← callCommonUpdate newNetwork targetNode clientType;
  match err with
  | Some err => revert_Fail revert;; ret (Some err)
  | None =>
  err ← Start;
  match err with
  | Some err => revert_Fail revert;; ret (Some err)
  | None =>
  let revert := revert_Success revert in
  (* Notify dependent networks of the changes. *)
  (if bool_decide (clientType = ClientTypeNormal) && (0 <? length changedKeys)%nat
   then callNotifyDependentNetworks changedKeys else ret tt);;
  revert_Fail revert;; ret None
  end end end end end.

End Driver.

(** ** A reference implementation of the collaborators *)

Module Sim.

(** Modelled from the spec: the host behind the InterfaceController
    contract (6).  The host has its links, each with an MTU, and the
    calls listed in [h_failing] fail on it. *)
Record Host := mkHost {
  h_links : gmap string string;
  h_failing : list string;
}.

(** Modelled from the spec: [GetHostDevice(parent, vlan)]; the host name
    is the parent for an untagged network and [parent.vlan] otherwise
    (8, scenarios 7 and 8). *)
Definition GetHostDevice (parent vlan : string) : string :=
  if bool_decide (vlan = "") then parent else parent +:+ "." +:+ vlan.

(** Modelled from the spec: [InterfaceExists(name) -> bool]. *)
Definition InterfaceExists (name : string) (h : Host) : bool :=
  bool_decide (is_Some (h_links h !! name)).

(** Modelled from the spec:
    [CreateVLANInterface(parent, name, vlan, gvrpFlag) -> (created bool, error)].
    Nothing is created for an untagged network or when the interface
    exists already. *)
Definition VLANInterfaceCreate (parent hostName vlan : string) (gvrp : bool) (h : Host) :
    Host * (bool * option error) :=
  if bool_decide (vlan = "") then (h, (false, None))
  else if InterfaceExists hostName h then (h, (false, None))
  else if bool_decide ("VLANInterfaceCreate" ∈ h_failing h) || negb (InterfaceExists parent h)
  then (h, (false, Some (External "Failed to create VLAN interface")))
  else (mkHost (<[hostName := "1500"]> (h_links h)) (h_failing h), (true, None)).

(** Modelled from the spec: [RemoveInterface(name) -> error]. *)
Definition InterfaceRemove (hostName : string) (h : Host) : Host * option error :=
  if bool_decide ("InterfaceRemove" ∈ h_failing h) || negb (InterfaceExists hostName h)
  then (h, Some (External "Failed to remove interface"))
  else (mkHost (delete hostName (h_links h)) (h_failing h), None).

(** Modelled from the spec: [SetMTU(name, mtu) -> error]. *)
Definition SetMTU (name mtu : string) (h : Host) : Host * option error :=
  if bool_decide ("SetMTU" ∈ h_failing h) || negb (InterfaceExists name h)
  then (h, Some (External "Failed to set MTU"))
  else (mkHost (<[name := mtu]> (h_links h)) (h_failing h), None).

(** Modelled from the spec: [shared.IsTrue], reading a string-encoded
    bool (6). *)
Definition IsTrue (value : string) : bool := bool_decide (value = "true").

#[global] Instance controller : InterfaceController Host :=
  Build_InterfaceController Host GetHostDevice VLANInterfaceCreate InterfaceRemove
    InterfaceExists SetMTU IsTrue.

(** Modelled from the spec: the cluster database behind the ClusterStore
    contract (6): the created networks by project, the warnings by
    network id, the networks in use, and the calls that fail. *)
Record Cluster := mkCluster {
  c_networks : ProjectNetworks;
  c_warnings : gmap Z error;
  c_used : list Z;
  c_failing : list string;
}.

(** Modelled from the spec:
    [GetCreatedNetworksByProject() -> mapping[project -> mapping[id -> record]]]. *)
Definition GetCreatedNetworks (c : Cluster) : error + ProjectNetworks :=
  if bool_decide ("GetCreatedNetworks" ∈ c_failing c)
  then inl (External "Failed to query networks")
  else inr (c_networks c).

(** Modelled from the spec:
    [UpdateNetworkRecord(id, description, config) -> error]; a failed
    transaction leaves the database as it was. *)
Definition UpdateNetwork (id : Z) (description : string) (config : StringMap)
    (c : Cluster) : Cluster * option error :=
  if bool_decide ("UpdateNetwork" ∈ c_failing c)
  then (c, Some (External "Failed to update network"))
  else (mkCluster
          (fmap (alter (λ r, api.mkNetwork (api.mkNetworkPut config description)
                                           (api.Name r)) id) (c_networks c))
          (c_warnings c) (c_used c) (c_failing c), None).

(** Modelled from the spec: [UpsertWarning(...)]. *)
Definition UpsertWarningLocalNode (project : string) (id : Z) (err : error)
    (c : Cluster) : Cluster * option error :=
  if bool_decide ("UpsertWarning" ∈ c_failing c)
  then (c, Some (External "Failed to upsert warning"))
  else (mkCluster (c_networks c) (<[id := err]> (c_warnings c)) (c_used c) (c_failing c),
        None).

(** Modelled from the spec: [ResolveWarning(...)]. *)
Definition ResolveWarnings (project : string) (id : Z) (c : Cluster) :
    Cluster * option error :=
  if bool_decide ("ResolveWarning" ∈ c_failing c)
  then (c, Some (External "Failed to resolve warning"))
  else (mkCluster (c_networks c) (delete id (c_warnings c)) (c_used c) (c_failing c), None).

#[global] Instance store : ClusterStore Cluster :=
  Build_ClusterStore Cluster GetCreatedNetworks UpdateNetwork UpsertWarningLocalNode
    ResolveWarnings.

(** Modelled from the spec: [n.common.configChanged], which computes the
    set of changed keys (4.1, Update): the keys at which the current and
    the new configuration differ; a database update is needed when the
    description or some key changed.  The old network is the current
    description and configuration. *)
Definition configChanged (n : physical) (newNetwork : api.NetworkPut) :
    bool * list string * api.NetworkPut * option error :=
  let oldNetwork := api.mkNetworkPut (n_config n) (n_description n) in
  let changedKeys :=
    filter (λ k, get (n_config n) k ≠ get (api.Config newNetwork) k)
           (elements (dom (n_config n) ∪ dom (api.Config newNetwork))) in
  (bool_decide (api.Description newNetwork ≠ n_description n)
   || bool_decide (changedKeys ≠ []), changedKeys, oldNetwork, None).

(** Modelled from the spec: [n.common.update], which persists the new
    configuration (4.1, Update); a request that comes from a cluster
    notification does not update the database (lines 411-412).  The
    receiver takes the new description and configuration. *)
Definition common_update (newNetwork : api.NetworkPut) (targetNode : string)
    (clientType : ClientType) (n : physical) (c : Cluster) :
    (physical * Cluster) * option error :=
  let n' := mkPhysical (n_id n) (n_project n) (n_name n) (api.Description newNetwork)
                       (api.Config newNetwork) (n_status n) (n_localStatus n) in
  if bool_decide (clientType = ClientTypeNormal) then
    let '(c', err) :=
      UpdateNetwork (n_id n) (api.Description newNetwork) (api.Config newNetwork) c in
    match err with
    | Some e => ((n, c), Some e)
    | None => ((n', c'), None)
    end
  else ((n', c), None).

(** Modelled from the spec: [n.IsUsed], whether the resource is
    currently in use (4.1, Update). *)
Definition IsUsed (n : physical) (c : Cluster) : bool * option error :=
  (bool_decide (n_id n ∈ c_used c), None).

(** Modelled from the spec: [n.common.notifyDependentNetworks]
    (4.4); the dependents are other records, nothing of this record
    changes. *)
Definition notifyDependentNetworks (changedKeys : list string) (n : physical)
    (h : Host) (c : Cluster) : Host * Cluster := (h, c).

#[global] Instance common : Common Host Cluster :=
  Build_Common Host Cluster configChanged common_update IsUsed notifyDependentNetworks.

End Sim.

(** ** The parent claim, in the words of the spec *)

(** Two configurations clash (3, ParentClaim) when they name the same
    parent and their VLANs are equal or one of them is empty. *)
Definition claimsClash (a b : StringMap) : Prop :=
  get a "parent" = get b "parent" ∧
  (get a "vlan" = "" ∨ get b "vlan" = "" ∨ get a "vlan" = get b "vlan").

(** The parent of [ourConfig] is claimed when a record of the default
    project, other than the record called [name], clashes with it. *)
Definition parentClaimed (name : string) (ourConfig : StringMap)
    (projectNetworks : ProjectNetworks) : Prop :=
  ∃ networks id network,
    projectNetworks !! project_Default = Some networks ∧
    networks !! id = Some network ∧
    api.Name network ≠ name ∧
    claimsClash (api.Config network) ourConfig.

(** ** Example states *)

Module Ex.

Abbreviation volatile := "volatile.last_state.created".

Definition network (name parent vlan : string) : api.Network :=
  api.mkNetwork (api.mkNetworkPut {["parent" := parent; "vlan" := vlan]} "") name.

(** The database: [physical0] on [eth0] with VLAN 10 (id 1), [physical1]
    on [eth0] with VLAN 20 (id 2), both in the default project, and
    [other0] on [eth0] with VLAN 10 in the project [blue] (id 3). *)
Definition networks : ProjectNetworks :=
  {[ "default" := {[ 1 := network "physical0" "eth0" "10";
                     2 := network "physical1" "eth0" "20" ]};
     "blue" := {[ 3 := network "other0" "eth0" "10" ]} ]}.

Definition db (failing : list string) : Sim.Cluster :=
  Sim.mkCluster networks ∅ [] failing.

(** A host with [eth0] only, and one where [eth0.10] exists too. *)
Definition bare (failing : list string) : Sim.Host :=
  Sim.mkHost {["eth0" := "1500"]} failing.

Definition tagged (failing : list string) : Sim.Host :=
  Sim.mkHost {["eth0" := "1500"; "eth0.10" := "1500"]} failing.

(** The receiver [physical0], with a given config and status. *)
Definition physical0 (config : StringMap) (status : string) : physical :=
  mkPhysical 1 "default" "physical0" "" config status status.

Definition vlan10 : StringMap := {["parent" := "eth0"; "vlan" := "10"]}.

Definition vlan10_created : StringMap :=
  {["parent" := "eth0"; "vlan" := "10"; volatile := "true"]}.

Definition untagged_mtu : StringMap :=
  {["parent" := "eth0"; "vlan" := ""; "mtu" := "9000"; volatile := "true"]}.

(** A new record on [eth0] without a VLAN, about to be created: it
    clashes with [physical0] and [physical1]. *)
Definition newcomer : State Sim.Host Sim.Cluster :=
  mkState (mkPhysical 4 "default" "physical2" "" {["parent" := "eth0"]} "Pending" "Pending")
          (bare []) (db []) [].

(** [physical0], not started yet, on a host where nothing fails. *)
Definition fresh : State Sim.Host Sim.Cluster :=
  mkState (physical0 vlan10 "Created") (bare []) (db []) [].

(** The same, with a database whose updates fail. *)
Definition fresh_db_down : State Sim.Host Sim.Cluster :=
  mkState (physical0 vlan10 "Created") (bare []) (db ["UpdateNetwork"]) [].

(** [physical0] started, its VLAN interface created by the driver. *)
Definition started : State Sim.Host Sim.Cluster :=
  mkState (physical0 vlan10_created "Created") (tagged []) (db []) [].

(** The same, on a host where [InterfaceRemove] fails. *)
Definition started_remove_fails : State Sim.Host Sim.Cluster :=
  mkState (physical0 vlan10_created "Created") (tagged ["InterfaceRemove"]) (db []) [].



(** An untagged network with an MTU, recorded as created. *)
Definition untagged : State Sim.Host Sim.Cluster :=
  mkState (physical0 untagged_mtu "Created") (bare []) (db []) [].

(** [physical0] still pending. *)
Definition pending : State Sim.Host Sim.Cluster :=
  mkState (physical0 vlan10 "Pending") (bare []) (db []) [].

(** The new configuration of an update to VLAN 30. *)
Definition to_vlan30 : api.NetworkPut :=
  api.mkNetworkPut {["parent" := "eth0"; "vlan" := "30"]} "".

End Ex.

(** ** Contracts of the collaborators *)

(** What the idempotence of [start] asks of the host calls.  A call of
    [VLANInterfaceCreate] that returns no error leaves the interface in
    place unless the network is untagged; it creates nothing, changes
    nothing and returns no error for an untagged network or an interface
    that exists.  [SetMTU] neither adds nor removes an interface, and a
    call that returned no error returns none when repeated and changes
    nothing then.  The string [true] reads as true. *)
Record HostIdempotent (Host : Type) `{!InterfaceController Host} : Prop := {
  create_realizes : ∀ parent hostName vlan gvrp (h h' : Host) created,
    VLANInterfaceCreate parent hostName vlan gvrp h = (h', (created, None)) →
    vlan = "" ∨ InterfaceExists hostName h' = true;
  create_existing : ∀ parent hostName vlan gvrp (h : Host),
    vlan = "" ∨ InterfaceExists hostName h = true →
    VLANInterfaceCreate parent hostName vlan gvrp h = (h, (false, None));
  setMTU_exists : ∀ name mtu (h h' : Host) other,
    SetMTU name mtu h = (h', None) → InterfaceExists other h' = InterfaceExists other h;
  setMTU_again : ∀ name mtu (h h' : Host),
    SetMTU name mtu h = (h', None) → SetMTU name mtu h' = (h', None);
  isTrue_true : IsTrue "true" = true;
}.

(** What it asks of the database: an update that returned no error
    returns none when repeated with the same record, and changes nothing
    then. *)
Definition UpdateIdempotent (Cluster : Type) `{!ClusterStore Cluster} : Prop :=
  ∀ id description config (c c' : Cluster),
    UpdateNetwork id description config c = (c', None) →
    UpdateNetwork id description config c' = (c', None).

(** An interface that was removed without error is gone. *)
Definition RemoveRemoves (Host : Type) `{!InterfaceController Host} : Prop :=
  ∀ name (h h' : Host),
    InterfaceRemove name h = (h', None) → InterfaceExists name h' = false.

(** A failed database transaction leaves the database as it was. *)
Definition UpdateAtomic (Cluster : Type) `{!ClusterStore Cluster} : Prop :=
  ∀ id description config (c c' : Cluster) e,
    UpdateNetwork id description config c = (c', Some e) → c' = c.

(** The warnings are kept apart from the networks: an update that
    changes nothing and returns no error does so as well once the
    warnings of a network were resolved. *)
Definition WarningsApart (Cluster : Type) `{!ClusterStore Cluster} : Prop :=
  ∀ project id (c c' : Cluster) r id' description config,
    ResolveWarnings project id c = (c', r) →
    UpdateNetwork id' description config c = (c, None) →
    UpdateNetwork id' description config c' = (c', None).

(** Modelled from the spec: the contract of [n.common.configChanged]
    (4.1, Update, "computes the set of changed keys"): against the
    description and configuration the record has, no database update is
    needed and there is no error. *)
Definition ConfigChangedIdentical (Host Cluster : Type) `{!Common Host Cluster} : Prop :=
  ∀ n : physical, ∃ changedKeys oldNetwork,
    configChanged n (api.mkNetworkPut (n_config n) (n_description n))
    = (false, changedKeys, oldNetwork, None).

(** ** A realized network *)

(** The network of the receiver is realized in a state when its host
    interface is in place, unless it is untagged, setting its MTU changes
    nothing, and whether the driver created the interface is recorded:
    either [volatile.last_state.created] is true, or it is [false] and
    the database has the config. *)
Definition realized {Host Cluster : Type}
    `{!InterfaceController Host, !ClusterStore Cluster}
    (s : State Host Cluster) : Prop :=
  let cfg := n_config (net s) in
  let hostName := GetHostDevice (get cfg "parent") (get cfg "vlan") in
  (get cfg "vlan" = "" ∨ InterfaceExists hostName (host s) = true) ∧
  (get cfg "mtu" ≠ "" → SetMTU hostName (get cfg "mtu") (host s) = (host s, None)) ∧
  (IsTrue (get cfg "volatile.last_state.created") = true ∨
   (cfg !! "volatile.last_state.created" = Some "false" ∧
    UpdateNetwork (n_id (net s)) (n_description (net s)) cfg (cluster s)
    = (cluster s, None))).

(** ** The update of the parent or the VLAN, in the words of the spec *)

Section Plan.
Context {Host Cluster : Type}.
Context `{!InterfaceController Host, !ClusterStore Cluster, !Common Host Cluster}.



End Plan.

(** ** Observations of the trace *)

(** The dependency notifications sent: the changed keys of each call of
    [notifyDependentNetworks], in order. *)
Definition notifications (calls : list Call) : list (list string) :=
  omap (λ c, match c with
             | CallNotifyDependentNetworks changedKeys => Some changedKeys
             | _ => None
             end) calls.

(** ** Delete and Rename (lines 293-315) *)

(** The two methods of the embedded [common] that [Delete] and [Rename]
    call, [n.common.delete] and [n.common.rename].  They are declared in
    another file; they may rewrite the receiver, the host and the
    database, and they return an error. *)
Class CommonLifecycle (Host Cluster : Type) := {
  common_delete : ClientType → physical → Host → Cluster →
                  (physical * Host * Cluster) * option error;
  common_rename : string → physical → Host → Cluster →
                  (physical * Host * Cluster) * option error;
}.

Section Lifecycle.
Context {Host Cluster : Type}.
Context `{!InterfaceController Host, !ClusterStore Cluster, !CommonLifecycle Host Cluster}.

Definition callCommonDelete (clientType : ClientType) : M Host Cluster (option error) :=
  λ s, let '((n', h', c'), err) := common_delete clientType (net s) (host s) (cluster s) in
       (err, mkState n' h' c' (trace s)).

Definition callCommonRename (newName : string) : M Host Cluster (option error) :=
  λ s, let '((n', h', c'), err) := common_rename newName (net s) (host s) (cluster s) in
       (err, mkState n' h' c' (trace s)).

Definition Delete (clientType : ClientType) : M Host Cluster (option error) :=
  record (LogDebug "Delete");;
  err ← Stop;
  match err with
  | Some err => ret (Some err)
  | None => callCommonDelete clientType
  end.

Definition Rename (newName : string) : M Host Cluster (option error) :=
  record (LogDebug "Rename");;
  (* Rename common steps. *)
  err ← callCommonRename newName;
  match err with
  | Some err => ret (Some err)
  | None => ret None
  end.

End Lifecycle.

(** ** More observations of the trace *)

(** The methods entered: the messages of the debug log lines, in order. *)
Definition debugLog (calls : list Call) : list string :=
  omap (λ c, match c with
             | LogDebug msg => Some msg
             | _ => None
             end) calls.

(** The checks made in the database before a change of the parent or of
    the VLAN: the calls of [n.IsUsed] and of [tx.GetCreatedNetworks]. *)
Definition checks (calls : list Call) : list Call :=
  omap (λ c, match c with
             | CallIsUsed => Some c
             | CallGetCreatedNetworks => Some c
             | _ => None
             end) calls.

(** The interfaces [InterfaceRemove] was called on. *)
Definition removals (calls : list Call) : list string :=
  omap (λ c, match c with
             | CallInterfaceRemove hostName => Some hostName
             | _ => None
             end) calls.

(** The writes of the network record: the configs passed to
    [tx.UpdateNetwork]. *)
Definition persisted (calls : list Call) : list StringMap :=
  omap (λ c, match c with
             | CallUpdateNetwork _ _ config => Some config
             | _ => None
             end) calls.

(** ** The node-local configuration (package [node], lines 11-149) *)

Module node.

(** [db.NodeTx], the transaction a [Config] is bound to, with the one
    method [update] calls. *)
Class NodeTx (Tx : Type) := {
  UpdateConfig : StringMap → Tx → Tx * option error;
}.

(** [config.Map], the low-level map of the values, with [Dump] and
    [Change]; [Value] stands for Go's [interface{}].  [Change] has a
    pointer receiver: it may rewrite the map. *)
Class ConfigMap (Map Value : Type) := {
  Map_Dump : Map → gmap string Value;
  Map_Change : gmap string Value → Map → Map * (StringMap * option error);
}.

Section Config.
Context {Tx Map Value : Type}.
Context `{!NodeTx Tx, !ConfigMap Map Value}.

Record Config := mkConfig {
  tx : Tx;
  m : Map;
}.

(** Lines 70-72. *)
Definition Dump (c : Config) : gmap string Value := Map_Dump (m c).

(** Lines 137-149.  A [nil] map is the empty map. *)
Definition update (values : gmap string Value) (c : Config) :
    (StringMap * option error) * Config :=
  let '(m1, (changed, err)) := Map_Change values (m c) in
  let c := mkConfig (tx c) m1 in
  match err with
  | Some err => ((∅, Some err), c)
  | None =>
      let '(tx1, err) := UpdateConfig changed (tx c) in
      let c := mkConfig tx1 (m c) in
      match err with
      | Some err =>
          ((∅, Some (Wrapf err "Cannot persist local configuration changes" [])), c)
      | None => ((changed, None), c)
      end
  end.

(** Lines 75-77. *)
Definition Replace (values : gmap string Value) (c : Config) :
    (StringMap * option error) * Config :=
  update values c.

(** Lines 80-87.  The loop [for name, value := range patch] assigns
    [values[name] = value] for each entry of the patch. *)
Definition Patch (patch : gmap string Value) (c : Config) :
    (StringMap * option error) * Config :=
  let values := Dump c in (* Use current values as defaults *)
  let values := map_fold (λ name value values, <[name := value]> values) values patch in
  update values c.

End Config.

End node.

(** ** More example states *)

Module More.

(** [physical0], not started, with a database whose scan fails. *)
Definition scan_fails : State Sim.Host Sim.Cluster :=
  mkState (Ex.physical0 Ex.vlan10 "Created") (Ex.bare []) (Ex.db ["GetCreatedNetworks"]) [].

(** [physical0], not started, on a host where [eth0.10] exists already. *)
Definition found : State Sim.Host Sim.Cluster :=
  mkState (Ex.physical0 Ex.vlan10 "Created") (Ex.tagged []) (Ex.db []) [].

(** [physical0] started with an MTU of 9000, its VLAN interface created
    by the driver. *)
Definition jumbo : State Sim.Host Sim.Cluster :=
  mkState (Ex.physical0 {["parent" := "eth0"; "vlan" := "10"; "mtu" := "9000";
                          Ex.volatile := "true"]} "Created")
          (Ex.tagged []) (Ex.db []) [].

(** [physical0] started and in use. *)
Definition in_use : State Sim.Host Sim.Cluster :=
  mkState (Ex.physical0 Ex.vlan10_created "Created") (Ex.tagged [])
          (Sim.mkCluster Ex.networks ∅ [1] []) [].

(** The configuration of the started [physical0] under a new
    description. *)
Definition described : api.NetworkPut := api.mkNetworkPut Ex.vlan10_created "uplink".

(** A record on [eth0] without a VLAN. *)
Definition rival : api.Network := Ex.network "physical2" "eth0" "".

End More.

(** ** Properties *)

Ltac run :=
  cbv beta iota zeta delta [bind ret record getNet putNet onHost readHost onCluster readCluster
    callVLANInterfaceCreate callInterfaceRemove callSetMTU callUpdateNetwork
    callUpsertWarning callResolveWarnings callIsUsed callCommonUpdate
    callNotifyDependentNetworks revert_New revert_Add revert_Success revert_Fail
    set_config];
  cbn [negb andb orb fst snd net host cluster trace
       n_id n_project n_name n_description n_config n_status n_localStatus].

(** Membership of a call in an explicit list of calls. *)
Ltac in_calls :=
  repeat match goal with
  | |- _ ∧ _ => split
  | |- _ ↔ _ => split
  | |- ¬ _ => intro
  | |- _ ∉ _ => intro
  | |- ∀ _, _ => intro
  | H : _ ∈ [] |- _ => by apply elem_of_nil in H
  | H : _ ∈ _ :: _ |- _ => apply elem_of_cons in H as [H|H]
  | H : _ ∈ _ ++ _ |- _ => apply elem_of_app in H as [H|H]
  end;
  simplify_eq; try done; try congruence;
  try (repeat first [apply list_elem_of_here | apply list_elem_of_further]; done).

Section Properties.
Context {Host Cluster : Type}.
Context `{!InterfaceController Host, !ClusterStore Cluster, !Common Host Cluster}.

Implicit Types s : State Host Cluster.

Lemma scanNetworks_true name ourConfig (networks : gmap Z api.Network) :
  scanNetworks name ourConfig networks = true ↔
  ∃ id network, networks !! id = Some network ∧ api.Name network ≠ name ∧
                claimsClash (api.Config network) ourConfig.
Proof.
  unfold scanNetworks, claimsClash. rewrite existsb_exists. split.
  - intros [[id network] [Hin Hb]].
    apply list_elem_of_In, elem_of_map_to_list in Hin.
    exists id, network. split; [done|].
    destruct (decide (api.Name network = name)) as [Hn|Hn].
    { by rewrite (bool_decide_eq_true_2 _ Hn) in Hb. }
    rewrite (bool_decide_eq_false_2 _ Hn) in Hb.
    case_bool_decide as Hp; [|done].
    repeat split; try done.
    apply orb_prop in Hb as [Hb| Hb]; [apply orb_prop in Hb as [Hb|Hb]|];
      apply bool_decide_eq_true in Hb; auto.
  - intros (id & network & Hl & Hname & Hp & Hv).
    exists (id, network). split.
    + by apply list_elem_of_In, elem_of_map_to_list.
    + rewrite (bool_decide_eq_false_2 _ Hname), (bool_decide_eq_true_2 _ Hp).
      destruct Hv as [Hv|[Hv|Hv]]; rewrite (bool_decide_eq_true_2 _ Hv);
        rewrite ?orb_true_r; done.
Qed.

Lemma scanProjects_true name ourConfig (projectNetworks : ProjectNetworks) :
  scanProjects name ourConfig projectNetworks = true ↔
  parentClaimed name ourConfig projectNetworks.
Proof.
  unfold scanProjects, parentClaimed. rewrite existsb_exists. split.
  - intros [[projectName networks] [Hin Hb]].
    apply list_elem_of_In, elem_of_map_to_list in Hin.
    case_bool_decide as Hp; [done|].
    subst projectName.
    apply scanNetworks_true in Hb as (id & network & ?).
    by exists networks, id, network.
  - intros (networks & id & network & Hl & Hrest).
    exists (project_Default, networks). split.
    + by apply list_elem_of_In, elem_of_map_to_list.
    + rewrite bool_decide_eq_false_2 by (intros Hne; by apply Hne).
      apply scanNetworks_true. by exists id, network.
Qed.

(** C1.  When the scan of the database returns the created networks, the
    parent of a record is reported in use, and [Create] with the normal
    client type fails with the conflict error, exactly when a record of
    the default project with another name has the same parent and a VLAN
    that is equal or empty on either side.  Records of other projects,
    records with another parent, records with two distinct non-empty VLANs
    and the record's own database entry are no conflict. *)
Theorem Create_conflict_iff_parentClaimed s (projectNetworks : ProjectNetworks) :
  GetCreatedNetworks (cluster s) = inr projectNetworks →
  (parentClaimed (n_name (net s)) (n_config (net s)) projectNetworks →
     (checkParentUse (n_config (net s)) s).1 = (true, None) ∧
     (Create ClientTypeNormal s).1 =
       Some (Errorf "Parent interface %q in use by another network"
                    [FString (get (n_config (net s)) "parent")]))
  ∧
  (¬ parentClaimed (n_name (net s)) (n_config (net s)) projectNetworks →
     (checkParentUse (n_config (net s)) s).1 = (false, None) ∧
     (Create ClientTypeNormal s).1 = None).
Proof.
  intros Hget. unfold Create, checkParentUse.
  rewrite bool_decide_eq_true_2 by done. run. rewrite !Hget. run.
  split; intros Hc.
  - apply scanProjects_true in Hc. by rewrite Hc.
  - rewrite <- scanProjects_true in Hc. apply not_true_is_false in Hc.
    by rewrite Hc.
Qed.

(** C4.  [Create] with the notification client type makes no scan of the
    database and returns no error; with the normal client type it makes
    the scan exactly once.  With either client type it leaves the
    receiver, the host and the database as they were. *)
Theorem Create_scans_once_iff_normal s clientType :
  let '(err, s') := Create clientType s in
  net s' = net s ∧ host s' = host s ∧ cluster s' = cluster s ∧
  match clientType with
  | ClientTypeNotification => err = None ∧ trace s' = trace s ++ [LogDebug "Create"]
  | ClientTypeNormal =>
      trace s' = trace s ++ [LogDebug "Create"] ++ [CallGetCreatedNetworks]
  end.
Proof.
  unfold Create, checkParentUse.
  destruct clientType; [rewrite bool_decide_eq_true_2 by done|]; run.
  - destruct (GetCreatedNetworks (cluster s)) as [e|pn]; run.
    + by rewrite <- app_assoc.
    + destruct (scanProjects _ _ _); run; by rewrite <- app_assoc.
  - done.
Qed.

Lemma get_insert_ne (m : StringMap) (k k' v : string) :
  k ≠ k' → get (<[k := v]> m) k' = get m k'.
Proof. intros Hne. unfold get. by rewrite lookup_insert_ne. Qed.

Lemma get_insert_eq (m : StringMap) (k v : string) : get (<[k := v]> m) k = v.
Proof. unfold get. by rewrite lookup_insert_eq. Qed.

(** C10.  For an untagged network [Stop] never calls [InterfaceRemove],
    whatever [volatile.last_state.created] says and whether or not the
    interface exists.  The one call it may make that changes the host is
    [SetMTU] of the parent to 1500, made exactly when an MTU is configured
    and the parent exists; otherwise the host is as it was. *)
Theorem Stop_untagged_never_removes s :
  get (n_config (net s)) "vlan" = "" →
  let hostName := GetHostDevice (get (n_config (net s)) "parent") "" in
  let resets :=
    bool_decide (get (n_config (net s)) "mtu" ≠ "") && InterfaceExists hostName (host s) in
  let '(err, s') := Stop s in
  host s' = (if resets then (SetMTU hostName "1500" (host s)).1 else host s) ∧
  ∃ calls, trace s' = trace s ++ calls ∧
    (∀ name, CallInterfaceRemove name ∉ calls) ∧
    (∀ parent name vlan gvrp, CallVLANInterfaceCreate parent name vlan gvrp ∉ calls) ∧
    (∀ name mtu, CallSetMTU name mtu ∈ calls →
                 resets = true ∧ name = hostName ∧ mtu = "1500").
Proof.
  intros Hvlan. unfold Stop. run. rewrite !Hvlan.
  rewrite (bool_decide_eq_false_2 ("" ≠ "")) by (intros Hne; by apply Hne).
  cbn [andb]. run.
  set (hostName := GetHostDevice _ _).
  destruct (bool_decide (get (n_config (net s)) "mtu" ≠ "") && InterfaceExists hostName (host s))
    eqn:Hresets; run.
  - destruct (SetMTU hostName "1500" (host s)) as [h' [e|]] eqn:Hmtu; run.
    + split; [done|]. eexists. rewrite <- app_assoc. split; [done|]. in_calls.
    + destruct (UpdateNetwork _ _ _ _) as [c' [e|]]; run;
        (split; [done|]; eexists; rewrite <- !app_assoc; split; [done|]; in_calls).
  - destruct (UpdateNetwork _ _ _ _) as [c' [e|]]; run;
      (split; [done|]; eexists; rewrite <- !app_assoc; split; [done|]; in_calls).
Qed.

(** The rule of [Stop] for the removal of the host interface, and what a
    [Stop] that returns no error has done. *)
Lemma Stop_removes_rule s :
  let n := net s in
  let hostName := GetHostDevice (get (n_config n) "parent") (get (n_config n) "vlan") in
  let removes :=
    bool_decide (get (n_config n) "vlan" ≠ "")
    && IsTrue (get (n_config n) "volatile.last_state.created")
    && InterfaceExists hostName (host s) in
  let config' := delete "volatile.last_state.created" (n_config n) in
  let '(err, s') := Stop s in
  ∃ calls, trace s' = trace s ++ calls ∧
    (CallInterfaceRemove hostName ∈ calls ↔ removes = true) ∧
    (∀ name, CallInterfaceRemove name ∈ calls → name = hostName) ∧
    (err = None →
       n_config (net s') = config' ∧
       CallUpdateNetwork (n_id n) (n_description n) config' ∈ calls ∧
       UpdateNetwork (n_id n) (n_description n) config' (cluster s) = (cluster s', None) ∧
       (removes = true → (InterfaceRemove hostName (host s)).2 = None)) ∧
    (get (n_config n) "vlan" = "10" →
     get (n_config n) "volatile.last_state.created" = "true" → IsTrue "true" = true →
     InterfaceExists hostName (host s) = true →
       CallInterfaceRemove hostName ∈ calls) ∧
    (get (n_config n) "vlan" = "" → ∀ name, CallInterfaceRemove name ∉ calls).
Proof.
  intros n hostName removes config'. unfold Stop. run.
  fold n. fold hostName. fold removes.
  assert (Hten : get (n_config n) "vlan" = "10" →
     get (n_config n) "volatile.last_state.created" = "true" → IsTrue "true" = true →
     InterfaceExists hostName (host s) = true → removes = true).
  { intros Hv Hc Ht He. unfold removes. rewrite Hv, Hc, Ht, He. done. }
  assert (Hnone : get (n_config n) "vlan" = "" → removes = false).
  { intros Hv. unfold removes. rewrite Hv. done. }
  destruct removes eqn:Hremoves; run.
  - destruct (InterfaceRemove hostName (host s)) as [h1 [e|]] eqn:Hrm; run.
    { eexists. rewrite <- !app_assoc. split; [done|].
      in_calls. by specialize (Hnone ltac:(done)). }
    destruct (bool_decide (get (n_config n) "mtu" ≠ "") && InterfaceExists hostName h1); run.
    + destruct (SetMTU hostName "1500" h1) as [h2 [e|]]; run.
      { eexists. rewrite <- !app_assoc. split; [done|].
        in_calls. by specialize (Hnone ltac:(done)). }
      fold config'.
      destruct (UpdateNetwork _ _ config' _) as [c' [e|]] eqn:Hupd; run;
        (eexists; rewrite <- !app_assoc; split; [done|]; in_calls;
         by specialize (Hnone ltac:(done))).
    + fold config'.
      destruct (UpdateNetwork _ _ config' _) as [c' [e|]] eqn:Hupd; run;
        (eexists; rewrite <- !app_assoc; split; [done|]; in_calls;
         by specialize (Hnone ltac:(done))).
  - destruct (bool_decide (get (n_config n) "mtu" ≠ "") && InterfaceExists hostName (host s));
      run.
    + destruct (SetMTU hostName "1500" (host s)) as [h2 [e|]]; run.
      { eexists. rewrite <- !app_assoc. split; [done|].
        in_calls. all: by (try specialize (Hten ltac:(done) ltac:(done) ltac:(done) ltac:(done))). }
      fold config'.
      destruct (UpdateNetwork _ _ config' _) as [c' [e|]] eqn:Hupd; run;
        (eexists; rewrite <- !app_assoc; split; [done|]; in_calls;
         by (try specialize (Hten ltac:(done) ltac:(done) ltac:(done) ltac:(done)))).
    + fold config'.
      destruct (UpdateNetwork _ _ config' _) as [c' [e|]] eqn:Hupd; run;
        (eexists; rewrite <- !app_assoc; split; [done|]; in_calls;
         by (try specialize (Hten ltac:(done) ltac:(done) ltac:(done) ltac:(done)))).
Qed.

(** What a [Stop] leaves behind when the removal of the interface or the
    reset of the MTU fails: it returns at once, with the receiver and the
    database as they were. *)
Lemma Stop_failure s calls :
  let n := net s in
  let hostName := GetHostDevice (get (n_config n) "parent") (get (n_config n) "vlan") in
  let removes :=
    bool_decide (get (n_config n) "vlan" ≠ "")
    && IsTrue (get (n_config n) "volatile.last_state.created")
    && InterfaceExists hostName (host s) in
  let h1 := if removes then (InterfaceRemove hostName (host s)).1 else host s in
  trace (Stop s).2 = trace s ++ calls →
  (∀ e, removes = true → (InterfaceRemove hostName (host s)).2 = Some e →
     (Stop s).1 = Some e ∧
     net (Stop s).2 = n ∧ cluster (Stop s).2 = cluster s ∧ host (Stop s).2 = h1 ∧
     calls = [LogDebug "Stop"; CallInterfaceRemove hostName]) ∧
  (∀ e, (removes = true → (InterfaceRemove hostName (host s)).2 = None) →
     get (n_config n) "mtu" ≠ "" → InterfaceExists hostName h1 = true →
     (SetMTU hostName "1500" h1).2 = Some e →
     (Stop s).1 = Some (Wrapf e "Failed setting MTU %q on %q"
                          [FLink hostName; FString hostName]) ∧
     net (Stop s).2 = n ∧ cluster (Stop s).2 = cluster s ∧
     host (Stop s).2 = (SetMTU hostName "1500" h1).1 ∧
     (∀ id description config, CallUpdateNetwork id description config ∉ calls)).
Proof.
  intros n hostName removes h1. unfold h1. clear h1. unfold Stop. run.
  fold n. fold hostName. fold removes.
  destruct removes eqn:Hremoves; run.
  - destruct (InterfaceRemove hostName (host s)) as [h1 [e|]] eqn:Hrm; run.
    { rewrite <- !app_assoc. intros Htr%app_inv_head. subst calls. split.
      - intros e' _ [= <-]. done.
      - intros e' Hok. by specialize (Hok eq_refl). }
    intros Htr. split; [intros e' _ [=]|].
    intros e _ Hmtu Hex Hset.
    rewrite (bool_decide_eq_true_2 _ Hmtu), Hex in Htr |- *. run. revert Htr. run.
    destruct (SetMTU hostName "1500" h1) as [h2 [e'|]]; run; [|done].
    cbn [snd] in Hset. injection Hset as ->.
    rewrite <- !app_assoc. intros Htr%app_inv_head. subst calls.
    repeat (split; [done|]). in_calls.
  - intros Htr. split; [by intros e' [=]|].
    intros e _ Hmtu Hex Hset.
    rewrite (bool_decide_eq_true_2 _ Hmtu), Hex in Htr |- *. run. revert Htr. run.
    destruct (SetMTU hostName "1500" (host s)) as [h2 [e'|]]; run; [|done].
    cbn [snd] in Hset. injection Hset as ->.
    rewrite <- !app_assoc. intros Htr%app_inv_head. subst calls.
    repeat (split; [done|]). in_calls.
Qed.

(** C8, as amended.  [Stop] calls [InterfaceRemove], on the host
    interface of the network and on no other, exactly when the configured
    vlan is not empty, [volatile.last_state.created] is true and the
    interface exists.  Whenever [Stop] returns no error, it has deleted
    [volatile.last_state.created] from the config and persisted the
    config without it, and the removal, when called, succeeded.  When the
    removal fails, [Stop] returns that error at once, and when the reset
    of the MTU fails, it returns that error, wrapped, at once: in both
    cases the key stays, the receiver and the database are as they were,
    and nothing is persisted.  So a network with VLAN 10 whose interface
    exists and was recorded as created has [InterfaceRemove] called on
    it, and an untagged network never has. *)
Theorem Stop_removes_iff_created_vlan s :
  let n := net s in
  let hostName := GetHostDevice (get (n_config n) "parent") (get (n_config n) "vlan") in
  let removes :=
    bool_decide (get (n_config n) "vlan" ≠ "")
    && IsTrue (get (n_config n) "volatile.last_state.created")
    && InterfaceExists hostName (host s) in
  let h1 := if removes then (InterfaceRemove hostName (host s)).1 else host s in
  let config' := delete "volatile.last_state.created" (n_config n) in
  let '(err, s') := Stop s in
  ∃ calls, trace s' = trace s ++ calls ∧
    (CallInterfaceRemove hostName ∈ calls ↔ removes = true) ∧
    (∀ name, CallInterfaceRemove name ∈ calls → name = hostName) ∧
    (err = None →
       n_config (net s') = config' ∧
       CallUpdateNetwork (n_id n) (n_description n) config' ∈ calls ∧
       UpdateNetwork (n_id n) (n_description n) config' (cluster s) = (cluster s', None) ∧
       (removes = true → (InterfaceRemove hostName (host s)).2 = None)) ∧
    (get (n_config n) "vlan" = "10" →
     get (n_config n) "volatile.last_state.created" = "true" → IsTrue "true" = true →
     InterfaceExists hostName (host s) = true →
       CallInterfaceRemove hostName ∈ calls) ∧
    (get (n_config n) "vlan" = "" → ∀ name, CallInterfaceRemove name ∉ calls) ∧
    (∀ e, removes = true → (InterfaceRemove hostName (host s)).2 = Some e →
       err = Some e ∧
       net s' = n ∧ cluster s' = cluster s ∧ host s' = h1 ∧
       calls = [LogDebug "Stop"; CallInterfaceRemove hostName]) ∧
    (∀ e, (removes = true → (InterfaceRemove hostName (host s)).2 = None) →
       get (n_config n) "mtu" ≠ "" → InterfaceExists hostName h1 = true →
       (SetMTU hostName "1500" h1).2 = Some e →
       err = Some (Wrapf e "Failed setting MTU %q on %q"
                     [FLink hostName; FString hostName]) ∧
       net s' = n ∧ cluster s' = cluster s ∧
       host s' = (SetMTU hostName "1500" h1).1 ∧
       (∀ id description config, CallUpdateNetwork id description config ∉ calls)).
Proof.
  intros n hostName removes h1 config'.
  pose proof (Stop_removes_rule s) as Hrule.
  pose proof (Stop_failure s) as Hfail.
  cbv zeta in Hrule, Hfail. fold n hostName removes h1 config' in Hrule, Hfail.
  destruct (Stop s) as [err s']. cbn [fst snd] in Hfail.
  destruct Hrule as (calls & Htr & Hiff & Honly & Hok & Hten & Hnone).
  destruct (Hfail calls Htr) as [Hremove Hreset].
  exists calls.
  split; [exact Htr|]. split; [exact Hiff|]. split; [exact Honly|]. split; [exact Hok|].
  split; [exact Hten|]. split; [exact Hnone|]. split; [exact Hremove|exact Hreset].
Qed.

Lemma notifications_app (a b : list Call) :
  notifications (a ++ b) = notifications a ++ notifications b.
Proof. apply omap_app. Qed.

Lemma start_result s :
  ∃ calls, trace (start s).2 = trace s ++ calls ∧ notifications calls = [].
Proof.
  unfold start. run.
  destruct (VLANInterfaceCreate _ _ _ _ _) as [h1 [created [e|]]]; run.
  { eexists. rewrite <- !app_assoc. split; done. }
  destruct (bool_decide (get (n_config (net s)) "mtu" ≠ "")); run.
  - destruct (SetMTU _ _ _) as [h2 [e|]]; run.
    { destruct created; run;
        [destruct (InterfaceRemove _ _) as [h3 e3]; run|];
        eexists; rewrite <- !app_assoc; split; done. }
    destruct (negb (IsTrue _)); run.
    + destruct (UpdateNetwork _ _ _ _) as [c1 [e|]]; run.
      { destruct created; run;
          [destruct (InterfaceRemove _ _) as [h3 e3]; run|];
          eexists; rewrite <- !app_assoc; split; done. }
      eexists; rewrite <- !app_assoc; split; done.
    + eexists; rewrite <- !app_assoc; split; done.
  - destruct (negb (IsTrue _)); run.
    + destruct (UpdateNetwork _ _ _ _) as [c1 [e|]]; run.
      { destruct created; run;
          [destruct (InterfaceRemove _ _) as [h3 e3]; run|];
          eexists; rewrite <- !app_assoc; split; done. }
      eexists; rewrite <- !app_assoc; split; done.
    + eexists; rewrite <- !app_assoc; split; done.
Qed.

Lemma Start_result s :
  (Start s).1 = (start s).1 ∧
  net (Start s).2 = net (start s).2 ∧
  host (Start s).2 = host (start s).2 ∧
  ∃ calls, trace (Start s).2 = trace s ++ calls ∧ notifications calls = [].
Proof.
  destruct (start_result s) as (calls & Htr & Hno).
  unfold Start. run. destruct (start s) as [[e|] s1]; run.
  - cbn [snd] in Htr. destruct (UpsertWarningLocalNode _ _ _ _) as [c1 [e1|]]; run.
    + repeat split; try done. eexists. rewrite Htr, <- !app_assoc. split; [done|].
      rewrite notifications_app, Hno. done.
    + repeat split; try done. eexists. rewrite Htr, <- !app_assoc. split; [done|].
      rewrite notifications_app, Hno. done.
  - cbn [snd] in Htr. destruct (ResolveWarnings _ _ _) as [c1 [e1|]]; run.
    + repeat split; try done. eexists. rewrite Htr, <- !app_assoc. split; [done|].
      rewrite notifications_app, Hno. done.
    + repeat split; try done. eexists. rewrite Htr, <- !app_assoc. split; [done|].
      rewrite notifications_app, Hno. done.
Qed.

Lemma Stop_result s :
  ∃ calls, trace (Stop s).2 = trace s ++ calls ∧ notifications calls = [].
Proof.
  unfold Stop. run.
  destruct (_ && _ && _); run.
  - destruct (InterfaceRemove _ _) as [h1 [e|]]; run.
    { eexists. rewrite <- !app_assoc. split; done. }
    destruct (_ && _); run.
    + destruct (SetMTU _ _ _) as [h2 [e|]]; run.
      { eexists. rewrite <- !app_assoc. split; done. }
      destruct (UpdateNetwork _ _ _ _) as [c1 [e|]]; run;
        eexists; rewrite <- !app_assoc; split; done.
    + destruct (UpdateNetwork _ _ _ _) as [c1 [e|]]; run;
        eexists; rewrite <- !app_assoc; split; done.
  - destruct (_ && _); run.
    + destruct (SetMTU _ _ _) as [h2 [e|]]; run.
      { eexists. rewrite <- !app_assoc. split; done. }
      destruct (UpdateNetwork _ _ _ _) as [c1 [e|]]; run;
        eexists; rewrite <- !app_assoc; split; done.
    + destruct (UpdateNetwork _ _ _ _) as [c1 [e|]]; run;
        eexists; rewrite <- !app_assoc; split; done.
Qed.

(** One step through [Update]: a case analysis of the next call, given
    what [Stop] and [Start] add to the trace. *)
Ltac update_step stop_result start_result :=
  match goal with
  | |- context [Stop ?s0] =>
      let H := fresh "Htr" in let Hn := fresh "Hno" in
      destruct (stop_result s0) as (? & H & Hn);
      destruct (Stop s0) as [[?|] ?]; cbn [fst snd trace] in H
  | |- context [Start ?s0] =>
      let H := fresh "Htr" in let Hn := fresh "Hno" in
      destruct (start_result s0) as (_ & _ & _ & ? & H & Hn);
      destruct (Start s0) as [[?|] ?]; cbn [fst snd trace] in H
  | |- context [common_update ?a ?b ?c ?n ?cl] =>
      destruct (common_update a b c n cl) as [[? ?] [?|]]
  | |- context [IsUsed ?n ?c] => destruct (IsUsed n c) as [[|] [?|]]
  | |- context [GetCreatedNetworks ?c] => destruct (GetCreatedNetworks c) as [?|?]
  | |- context [notifyDependentNetworks ?k ?n ?h ?c] =>
      destruct (notifyDependentNetworks k n h c) as [? ?]
  | |- context [scanProjects ?a ?b ?c] => destruct (scanProjects a b c)
  | |- context [bool_decide (Some ?e ≠ None)] =>
      change (bool_decide (Some e ≠ None)) with true
  | |- context [bool_decide (@None error ≠ None)] =>
      change (bool_decide (@None error ≠ None)) with false
  end.

(** C9, as amended.  [Update] sends the dependency notification, once
    and with the changed keys, exactly when the record is not pending
    (neither cluster-wide nor locally), a database update was needed,
    [Update] returned no error, the client type is normal and the list of
    changed keys is not empty.  [Start] returns exactly the result of
    [start], with the receiver and the host as [start] left them, also
    when the warning calls fail. *)
Theorem Update_notifies_iff s newNetwork targetNode clientType :
  let '(dbUpdateNeeeded, changedKeys, oldNetwork, cerr) :=
    configChanged (net s) newNetwork in
  let pending :=
    bool_decide (n_status (net s) = NetworkStatusPending)
    || bool_decide (n_localStatus (net s) = NetworkStatusPending) in
  let '(err, s') := Update newNetwork targetNode clientType s in
  (∃ calls, trace s' = trace s ++ calls ∧
     notifications calls =
       if negb pending && dbUpdateNeeeded && bool_decide (err = None)
          && bool_decide (clientType = ClientTypeNormal)
          && (0 <? length changedKeys)%nat
       then [changedKeys] else []) ∧
  (∀ s0 : State Host Cluster,
     (Start s0).1 = (start s0).1 ∧
     net (Start s0).2 = net (start s0).2 ∧
     host (Start s0).2 = host (start s0).2).
Proof.
  unfold Update. run.
  destruct (configChanged (net s) newNetwork) as [[[upd changedKeys] oldNetwork] cerr]. run.
  assert (HStart : ∀ s0 : State Host Cluster,
     (Start s0).1 = (start s0).1 ∧
     net (Start s0).2 = net (start s0).2 ∧
     host (Start s0).2 = host (start s0).2).
  { intros s0; destruct (Start_result s0) as (? & ? & ? & _); done. }
  destruct cerr as [e|]; run.
  { split; [|done]. eexists. split; [done|].
    rewrite (bool_decide_eq_false_2 (Some e = None)) by done.
    by rewrite !andb_false_r. }
  destruct upd; run; cycle 1.
  { split; [|done]. eexists. split; [done|]. by rewrite andb_false_r. }
  destruct (bool_decide _ || bool_decide _) eqn:Hpending; run.
  { destruct (common_update _ _ _ _ _) as [[n1 c1] err]; run.
    split; [|done]. eexists. rewrite <- !app_assoc. split; done. }
  destruct clientType;
    [change (bool_decide (ClientTypeNormal = ClientTypeNormal)) with true
    |change (bool_decide (ClientTypeNotification = ClientTypeNormal)) with false];
  destruct (0 <? length changedKeys)%nat eqn:Hlen;
  destruct (StringInSlice "vlan" changedKeys || StringInSlice "parent" changedKeys);
  run; unfold checkParentUse; run.
  all: repeat (update_step Stop_result Start_result; run).
  all: split; [|assumption].
  all: repeat match goal with H : trace _ = _ |- _ => rewrite H; clear H end.
  all: rewrite <- ?app_assoc; eexists; (split; [reflexivity|]).
  all: rewrite ?notifications_app.
  all: repeat match goal with H : notifications _ = [] |- _ => rewrite H; clear H end.
  all: repeat match goal with
       | |- context [bool_decide (Some ?e = None)] =>
           change (bool_decide (Some e = None)) with false
       | |- context [bool_decide (@None error = None)] =>
           change (bool_decide (@None error = None)) with true
       end.
  all: reflexivity.
Qed.


(** C5.  On a record whose cluster-wide status or local status is
    pending, [Update] calls neither [Start] nor [Stop] nor any host call,
    and leaves the host as it was, for every new configuration, target
    node and client type.  When the configuration changed, all it does is
    one call of [n.common.update] with the new configuration, whose
    result it returns; otherwise it does nothing. *)
Theorem Update_pending_only_persists s newNetwork targetNode clientType :
  n_status (net s) = NetworkStatusPending ∨
  n_localStatus (net s) = NetworkStatusPending →
  let '(dbUpdateNeeeded, changedKeys, oldNetwork, cerr) :=
    configChanged (net s) newNetwork in
  let '(err, s') := Update newNetwork targetNode clientType s in
  host s' = host s ∧
  ∃ calls, trace s' = trace s ++ LogDebug "Update" :: calls ∧
    (LogDebug "Start" ∉ calls) ∧ (LogDebug "Stop" ∉ calls) ∧
    (if bool_decide (cerr = None) && dbUpdateNeeeded
    then calls = [CallCommonUpdate newNetwork targetNode clientType] ∧
         common_update newNetwork targetNode clientType (net s) (cluster s)
         = ((net s', cluster s'), err)
    else calls = [] ∧ net s' = net s ∧ cluster s' = cluster s ∧ err = cerr).
Proof.
  intros Hpending.
  assert (Hp : bool_decide (n_status (net s) = NetworkStatusPending)
               || bool_decide (n_localStatus (net s) = NetworkStatusPending) = true).
  { destruct Hpending as [H|H]; rewrite (bool_decide_eq_true_2 _ H);
      [done|by rewrite orb_true_r]. }
  unfold Update. run.
  destruct (configChanged (net s) newNetwork) as [[[upd changedKeys] oldNetwork] cerr].
  run. destruct cerr as [e|]; run.
  { split; [done|]. exists []. by in_calls. }
  destruct upd; run; cycle 1.
  { split; [done|]. exists []. by in_calls. }
  rewrite Hp.
  change (bool_decide (@None error = None)) with true. run.
  destruct (common_update _ _ _ _ _) as [[n1 c1] err]; run.
  split; [done|]. eexists. rewrite <- app_assoc. split; [done|]. in_calls.
Qed.

(** C6.  When [configChanged] reports no change for the description and
    configuration the record has, [Update] with them returns no error at
    once, having done nothing but write its log line: no [Stop], no
    [Start], no database write, no dependency notification. *)
Theorem Update_identical_is_noop s targetNode clientType :
  ConfigChangedIdentical Host Cluster →
  Update (api.mkNetworkPut (n_config (net s)) (n_description (net s)))
         targetNode clientType s
  = (None, mkState (net s) (host s) (cluster s) (trace s ++ [LogDebug "Update"])).
Proof.
  intros Hsame. destruct (Hsame (net s)) as (changedKeys & oldNetwork & Hcc).
  unfold Update. run. rewrite Hcc. run. done.
Qed.


Ltac run_in H :=
  cbv beta iota zeta delta [bind ret record getNet putNet onHost readHost onCluster
    readCluster callVLANInterfaceCreate callInterfaceRemove callSetMTU callUpdateNetwork
    callUpsertWarning callResolveWarnings callIsUsed callCommonUpdate
    callNotifyDependentNetworks revert_New revert_Add revert_Success revert_Fail
    set_config] in H;
  cbn [negb andb orb fst snd net host cluster trace
       n_id n_project n_name n_description n_config n_status n_localStatus] in H.

(** [start] on a realized network creates nothing, writes nothing new
    and changes nothing. *)
Lemma start_realized s :
  HostIdempotent Host → realized s →
  ∃ calls,
    start s = (None, mkState (net s) (host s) (cluster s) (trace s ++ calls)) ∧
    (∀ parent hostName vlan gvrp,
       CallVLANInterfaceCreate parent hostName vlan gvrp ∈ calls →
       VLANInterfaceCreate parent hostName vlan gvrp (host s)
       = (host s, (false, None))) ∧
    (IsTrue (get (n_config (net s)) "volatile.last_state.created") = true →
     ∀ id description config, CallUpdateNetwork id description config ∉ calls).
Proof.
  intros [Hreal Hexist Hkeep Hagain Htrue] (Hthere & Hmtu & Hvol).
  set (cfg := n_config (net s)) in *.
  set (hostName := GetHostDevice (get cfg "parent") (get cfg "vlan")) in *.
  assert (Hnet : mkPhysical (n_id (net s)) (n_project (net s)) (n_name (net s))
                   (n_description (net s)) cfg (n_status (net s))
                   (n_localStatus (net s)) = net s).
  { unfold cfg. by destruct (net s). }
  unfold start. run. fold cfg. fold hostName.
  rewrite (Hexist _ _ _ _ _ Hthere). run.
  destruct (bool_decide (get cfg "mtu" ≠ "")) eqn:Hm; run.
  - apply bool_decide_eq_true in Hm. rewrite (Hmtu Hm). run.
    destruct (IsTrue (get cfg "volatile.last_state.created")) eqn:Hv; run.
    + eexists. rewrite <- !app_assoc. split; [done|].
      in_calls. by apply Hexist.
    + destruct Hvol as [Hx|[Hfalse Hupd]]; [discriminate Hx|].
      cbn [Sprintf_t]. rewrite (insert_id _ _ _ Hfalse).
      fold cfg. rewrite Hupd. run. rewrite Hnet.
      eexists. rewrite <- !app_assoc. split; [done|].
      in_calls. by apply Hexist.
  - destruct (IsTrue (get cfg "volatile.last_state.created")) eqn:Hv; run.
    + eexists. rewrite <- !app_assoc. split; [done|].
      in_calls. by apply Hexist.
    + destruct Hvol as [Hx|[Hfalse Hupd]]; [discriminate Hx|].
      cbn [Sprintf_t]. rewrite (insert_id _ _ _ Hfalse).
      fold cfg. rewrite Hupd. run. rewrite Hnet.
      eexists. rewrite <- !app_assoc. split; [done|].
      in_calls. by apply Hexist.
Qed.

(** A [start] that returns no error leaves the network realized. *)
Lemma start_realizes s s1 :
  HostIdempotent Host → UpdateIdempotent Cluster →
  start s = (None, s1) → realized s1.
Proof.
  intros Hhost Hupd Hstart. unfold realized.
  destruct Hhost as [Hreal Hexist Hkeep Hagain Htrue].
  unfold start in Hstart. run_in Hstart.
  set (cfg := n_config (net s)) in *.
  set (hostName := GetHostDevice (get cfg "parent") (get cfg "vlan")) in *.
  destruct (VLANInterfaceCreate _ _ _ _ _) as [h1 [created [e|]]] eqn:Hcreate;
    run_in Hstart; try discriminate.
  apply Hreal in Hcreate.
  destruct (bool_decide (get cfg "mtu" ≠ "")) eqn:Hm; run_in Hstart;
    [destruct (SetMTU _ _ _) as [h2 [e|]] eqn:Hmtu; run_in Hstart|].
  all: try (destruct created; run_in Hstart;
            [destruct (InterfaceRemove _ _) as [? ?]; run_in Hstart|]; discriminate).
  all: destruct (IsTrue (get cfg "volatile.last_state.created")) eqn:Hv; run_in Hstart;
    [|destruct (UpdateNetwork _ _ _ _) as [c1 [e|]] eqn:Hu; run_in Hstart].
  all: try (destruct created; run_in Hstart;
            [destruct (InterfaceRemove _ _) as [? ?]; run_in Hstart|]; discriminate).
  all: injection Hstart as <-; cbn [net host cluster n_config n_id n_description].
  all: rewrite ?get_insert_ne by done; fold cfg; fold hostName.
  all: split; [try rewrite (Hkeep _ _ _ _ hostName Hmtu); exact Hcreate|].
  all: split; [intros Hne; first [by apply (Hagain _ _ _ _ Hmtu)
                                 |by apply bool_decide_eq_false in Hm]|].
  all: try (left; exact Hv).
  all: rewrite get_insert_eq; destruct created; [by left|right].
  all: split; [apply lookup_insert_eq|by apply (Hupd _ _ _ _ _ Hu)].
Qed.

(** C2, as amended.  Under the contracts of the host calls and of the
    database, a second [Start] right after a [Start] that returned no
    error returns no error either and leaves the host and the receiver,
    with its [volatile.last_state.created], exactly as the first left
    them, the database being touched by the resolution of the warnings
    only:
    [VLANInterfaceCreate] finds the interface and creates nothing, and
    when [volatile.last_state.created] is true no database update is made
    and the key is not written.  The same holds of [start] alone, which
    leaves the database as it was. *)
Theorem Start_twice_same s s1 :
  HostIdempotent Host → UpdateIdempotent Cluster → WarningsApart Cluster →
  Start s = (None, s1) →
  (∃ calls,
     Start s1
     = (None, mkState (net s1) (host s1)
                (ResolveWarnings (n_project (net s1)) (n_id (net s1)) (cluster s1)).1
                (trace s1 ++ calls)) ∧
     (∀ parent hostName vlan gvrp,
        CallVLANInterfaceCreate parent hostName vlan gvrp ∈ calls →
        VLANInterfaceCreate parent hostName vlan gvrp (host s1)
        = (host s1, (false, None))) ∧
     (IsTrue (get (n_config (net s1)) "volatile.last_state.created") = true →
      ∀ id description config, CallUpdateNetwork id description config ∉ calls)) ∧
  (∀ s0, start s = (None, s0) →
     ∃ calls,
       start s0 = (None, mkState (net s0) (host s0) (cluster s0) (trace s0 ++ calls)) ∧
       (IsTrue (get (n_config (net s0)) "volatile.last_state.created") = true →
        ∀ id description config, CallUpdateNetwork id description config ∉ calls)).
Proof.
  intros Hhost Hupd Hapart HStart. split.
  - unfold Start in HStart. run_in HStart.
    destruct (start s) as [[e|] s0] eqn:Hs0; run_in HStart.
    { destruct (UpsertWarningLocalNode _ _ _ _) as [c [?|]]; run_in HStart; discriminate. }
    pose proof (start_realizes _ _ Hhost Hupd Hs0) as (Hthere & Hmtu & Hvol).
    destruct (ResolveWarnings _ _ (cluster s0)) as [c1 r1] eqn:Hres. run_in HStart.
    assert (Hs1 : net s1 = net s0 ∧ host s1 = host s0 ∧ cluster s1 = c1).
    { destruct r1; run_in HStart; by injection HStart as <-. }
    destruct Hs1 as (Hnet & Hhost1 & Hcluster). clear HStart.
    assert (Hrealized : realized s1).
    { unfold realized. rewrite Hnet, Hhost1, Hcluster.
      split; [done|]. split; [done|].
      destruct Hvol as [Hv|[Hfalse Hsame]]; [by left|right].
      split; [done|]. by apply (Hapart _ _ _ _ _ _ _ _ Hres). }
    destruct (start_realized s1 Hhost Hrealized) as (calls & Hstart1 & Hcreate & Hwrite).
    unfold Start. run. rewrite Hstart1. run.
    destruct (ResolveWarnings _ _ (cluster s1)) as [c2 [e2|]]; run.
    + eexists. rewrite <- !app_assoc. split; [done|]. split.
      * intros parent hostName vlan gvrp Hin. apply Hcreate.
        apply elem_of_app in Hin as [Hin|Hin]; [done|]. in_calls.
      * intros Hv id description config Hin.
        apply elem_of_app in Hin as [Hin|Hin]; [by apply (Hwrite Hv) in Hin|]. in_calls.
    + eexists. rewrite <- !app_assoc. split; [done|]. split.
      * intros parent hostName vlan gvrp Hin. apply Hcreate.
        apply elem_of_app in Hin as [Hin|Hin]; [done|]. in_calls.
      * intros Hv id description config Hin.
        apply elem_of_app in Hin as [Hin|Hin]; [by apply (Hwrite Hv) in Hin|]. in_calls.
  - intros s0 Hs0.
    destruct (start_realized s0 Hhost (start_realizes _ _ Hhost Hupd Hs0))
      as (calls & Hstart0 & _ & Hwrite).
    by exists calls.
Qed.

(** What a failed [start] leaves behind, when it had created the host
    interface. *)
Lemma start_failure s h1 e :
  let cfg := n_config (net s) in
  let hostName := GetHostDevice (get cfg "parent") (get cfg "vlan") in
  let h2 := if bool_decide (get cfg "mtu" ≠ "")
            then (SetMTU hostName (get cfg "mtu") h1).1 else h1 in
  VLANInterfaceCreate (get cfg "parent") hostName (get cfg "vlan")
    (IsTrue (get cfg "gvrp")) (host s) = (h1, (true, None)) →
  (start s).1 = Some e →
  let s' := (start s).2 in
  (∃ calls, trace s' = trace s ++ calls ++ [CallInterfaceRemove hostName]) ∧
  host s' = (InterfaceRemove hostName h2).1 ∧
  (RemoveRemoves Host → (InterfaceRemove hostName h2).2 = None →
   InterfaceExists hostName (host s') = false) ∧
  (UpdateAtomic Cluster → cluster s' = cluster s) ∧
  ((∃ cause, e = Wrapf cause "Failed setting MTU %q on %q"
                   [FString (get cfg "mtu"); FString hostName] ∧
             net s' = net s) ∨
   (∃ cause, e = Wrapf cause "Failed saving volatile config" [] ∧
             IsTrue (get cfg "volatile.last_state.created") = false ∧
             n_config (net s') = <["volatile.last_state.created" := "true"]> cfg)).
Proof.
  intros cfg hostName h2 Hcreate. unfold start. run.
  fold cfg. fold hostName. rewrite Hcreate. run. unfold h2. clear h2.
  destruct (bool_decide (get cfg "mtu" ≠ "")); run.
  - destruct (SetMTU hostName (get cfg "mtu") h1) as [h2 [cause|]] eqn:Hmtu; run.
    + destruct (InterfaceRemove hostName h2) as [h3 r] eqn:Hrm. run.
      intros [= <-]. split; [|split; [done|split; [|split]]].
      * eexists [_; _; _]. by rewrite <- !app_assoc.
      * intros Hrr ->. by apply (Hrr _ _ _ Hrm).
      * done.
      * left. by eexists.
    + destruct (IsTrue (get cfg "volatile.last_state.created")) eqn:Hv; run; [done|].
      destruct (UpdateNetwork _ _ _ _) as [c1 [cause|]] eqn:Hupd; run; [|done].
      destruct (InterfaceRemove hostName h2) as [h3 r] eqn:Hrm. run.
      intros [= <-]. split; [|split; [done|split; [|split]]].
      * eexists [_; _; _; _]. by rewrite <- !app_assoc.
      * intros Hrr ->. by apply (Hrr _ _ _ Hrm).
      * intros Hat. by apply (Hat _ _ _ _ _ _ Hupd).
      * right. by eexists.
  - destruct (IsTrue (get cfg "volatile.last_state.created")) eqn:Hv; run; [done|].
    destruct (UpdateNetwork _ _ _ _) as [c1 [cause|]] eqn:Hupd; run; [|done].
    destruct (InterfaceRemove hostName h1) as [h3 r] eqn:Hrm. run.
    intros [= <-]. split; [|split; [done|split; [|split]]].
    * eexists [_; _; _]. by rewrite <- !app_assoc.
    * intros Hrr ->. by apply (Hrr _ _ _ Hrm).
    * intros Hat. by apply (Hat _ _ _ _ _ _ Hupd).
    * right. by eexists.
Qed.

(** C3, as amended.  When [Start] fails after [VLANInterfaceCreate]
    created the host interface, it fails with the error of [start], and
    leaves the host and the receiver as [start] left them.  The revert
    scope of [start] calls [InterfaceRemove] on that interface, as the
    last call before the error is returned, so that the interface is gone
    whenever that removal succeeds; [start] wrote nothing to the database
    when a failed update leaves it as it was.  When the failing step is
    the MTU, the receiver and its [volatile.last_state.created] are as
    before; when it is the persist of the volatile config, the database
    is as before and the config of the receiver in memory holds the
    [volatile.last_state.created] just assigned, [true]. *)
Theorem Start_failure_reverts_host s h1 e :
  let cfg := n_config (net s) in
  let hostName := GetHostDevice (get cfg "parent") (get cfg "vlan") in
  let h2 := if bool_decide (get cfg "mtu" ≠ "")
            then (SetMTU hostName (get cfg "mtu") h1).1 else h1 in
  VLANInterfaceCreate (get cfg "parent") hostName (get cfg "vlan")
    (IsTrue (get cfg "gvrp")) (host s) = (h1, (true, None)) →
  (Start s).1 = Some e →
  let s' := (start s).2 in
  (start s).1 = Some e ∧
  net (Start s).2 = net s' ∧
  host (Start s).2 = host s' ∧
  (∃ calls, trace s' = trace s ++ calls ++ [CallInterfaceRemove hostName]) ∧
  host s' = (InterfaceRemove hostName h2).1 ∧
  (RemoveRemoves Host → (InterfaceRemove hostName h2).2 = None →
   InterfaceExists hostName (host (Start s).2) = false) ∧
  (UpdateAtomic Cluster → cluster s' = cluster s) ∧
  ((∃ cause, e = Wrapf cause "Failed setting MTU %q on %q"
                   [FString (get cfg "mtu"); FString hostName] ∧
             net (Start s).2 = net s) ∨
   (∃ cause, e = Wrapf cause "Failed saving volatile config" [] ∧
             IsTrue (get cfg "volatile.last_state.created") = false ∧
             n_config (net (Start s).2)
             = <["volatile.last_state.created" := "true"]> cfg)).
Proof.
  intros cfg hostName h2 Hcreate HStart s'.
  destruct (Start_result s) as (Herr & Hnet & Hhost & _).
  rewrite Herr in HStart. rewrite Hnet, Hhost. fold s'.
  destruct (start_failure s h1 e Hcreate HStart) as (Htrace & Hh & Hgone & Hdb & Hcfg).
  done.
Qed.

End Properties.

(** ** The reference implementation keeps the contracts *)

Lemma Sim_InterfaceExists_insert name (links : gmap string string) mtu failing other :
  is_Some (links !! name) →
  Sim.InterfaceExists other (Sim.mkHost (<[name := mtu]> links) failing)
  = Sim.InterfaceExists other (Sim.mkHost links failing).
Proof.
  intros Hsome. unfold Sim.InterfaceExists. cbn.
  apply bool_decide_ext. rewrite lookup_insert.
  case_decide; subst; split; eauto.
Qed.

Lemma Sim_HostIdempotent : HostIdempotent Sim.Host.
Proof.
  split; cbn.
  - intros parent hostName vlan gvrp h h' created. unfold Sim.VLANInterfaceCreate.
    case_bool_decide; [by left|].
    destruct (Sim.InterfaceExists hostName h) eqn:Hex.
    { intros [= <- _]. by right. }
    destruct (_ || _); intros [= <- _].
    right. unfold Sim.InterfaceExists. cbn. apply bool_decide_eq_true.
    rewrite lookup_insert_eq. eauto.
  - intros parent hostName vlan gvrp h [->|Hex]; unfold Sim.VLANInterfaceCreate.
    + done.
    + case_bool_decide; [done|]. by rewrite Hex.
  - intros name mtu [links failing] h' other. unfold Sim.SetMTU.
    destruct (bool_decide _ || negb _) eqn:Hfail; [done|].
    intros [= <-]. cbn. apply Sim_InterfaceExists_insert.
    apply orb_false_elim in Hfail as [_ Hex]. apply negb_false_iff in Hex.
    by apply bool_decide_eq_true in Hex.
  - intros name mtu [links failing] h'. unfold Sim.SetMTU.
    destruct (bool_decide _ || negb _) eqn:Hfail; [done|].
    intros [= <-]. cbn in *.
    apply orb_false_elim in Hfail as [Hf Hex]. rewrite Hf. cbn.
    replace (Sim.InterfaceExists name _) with true.
    + cbn. by rewrite insert_insert_eq.
    + symmetry. unfold Sim.InterfaceExists. cbn. apply bool_decide_eq_true.
      rewrite lookup_insert_eq. eauto.
  - done.
Qed.

Lemma Sim_RemoveRemoves : RemoveRemoves Sim.Host.
Proof.
  intros name [links failing] h'. cbn. unfold Sim.InterfaceRemove.
  destruct (_ || _); [done|]. intros [= <-].
  unfold Sim.InterfaceExists. cbn. apply bool_decide_eq_false.
  rewrite lookup_delete_eq. by intros [? ?].
Qed.

Lemma Sim_UpdateAtomic : UpdateAtomic Sim.Cluster.
Proof.
  intros id description config c c' e. cbn. unfold Sim.UpdateNetwork.
  case_bool_decide; [|done]. by intros [= <- _].
Qed.

Lemma Sim_UpdateIdempotent : UpdateIdempotent Sim.Cluster.
Proof.
  intros id description config [nets ws used failing] c'. cbn. unfold Sim.UpdateNetwork. cbn.
  case_bool_decide as Hf; [done|]. intros [= <-]. cbn.
  rewrite (bool_decide_eq_false_2 _ Hf). do 2 f_equal.
  apply map_eq. intros project. rewrite !lookup_fmap.
  destruct (nets !! project) as [m|]; [|done]. cbn. f_equal.
  apply map_eq. intros i. rewrite !lookup_alter.
  case_decide; [|done]. subst. rewrite decide_True by done. by destruct (m !! _).
Qed.

Lemma Sim_WarningsApart : WarningsApart Sim.Cluster.
Proof.
  intros project id [nets ws used failing] c' r id' description config. cbn.
  unfold Sim.ResolveWarnings, Sim.UpdateNetwork. cbn. intros Hres Hupd.
  destruct (bool_decide ("UpdateNetwork" ∈ failing)) eqn:Hf; [done|].
  injection Hupd as Hnets.
  destruct (bool_decide ("ResolveWarning" ∈ failing)); injection Hres as <- _; cbn;
    rewrite Hf; by rewrite Hnets.
Qed.

Lemma Sim_ConfigChangedIdentical : ConfigChangedIdentical Sim.Host Sim.Cluster.
Proof.
  intros n. cbn. unfold Sim.configChanged. cbn.
  assert (Hnone : ∀ l : list string,
            filter (λ k, get (n_config n) k ≠ get (n_config n) k) l = []).
  { induction l as [|k l IH]; [done|].
    rewrite filter_cons_False; [done|]. intros Hne. by apply Hne. }
  rewrite Hnone. eexists _, _. do 3 f_equal.
  rewrite bool_decide_eq_false_2 by (intros H; by apply H).
  rewrite bool_decide_eq_false_2 by (intros H; by apply H). done.
Qed.

(** ** The properties at work *)

(** [Create] of a new untagged record on [eth0] finds [physical0], which
    has VLAN 10 on [eth0], and fails. *)
Lemma Create_conflict_witness :
  GetCreatedNetworks (cluster Ex.newcomer) = inr Ex.networks ∧
  (checkParentUse (n_config (net Ex.newcomer)) Ex.newcomer).1 = (true, None) ∧
  (Create ClientTypeNormal Ex.newcomer).1 =
    Some (Errorf "Parent interface %q in use by another network" [FString "eth0"]).
Proof.
  split; [reflexivity|].
  apply (Create_conflict_iff_parentClaimed Ex.newcomer Ex.networks); [reflexivity|].
  exists {[ 1 := Ex.network "physical0" "eth0" "10";
            2 := Ex.network "physical1" "eth0" "20" ]}, 1,
         (Ex.network "physical0" "eth0" "10").
  split; [reflexivity|]. split; [reflexivity|]. split; [discriminate|].
  split; [reflexivity|]. right. left. reflexivity.
Defined.

(** [Create] with either client type at the new record. *)
Lemma Create_scans_witness :
  trace (Create ClientTypeNormal Ex.newcomer).2 = [LogDebug "Create"; CallGetCreatedNetworks] ∧
  (Create ClientTypeNotification Ex.newcomer).1 = None ∧
  trace (Create ClientTypeNotification Ex.newcomer).2 = [LogDebug "Create"].
Proof.
  pose proof (Create_scans_once_iff_normal Ex.newcomer ClientTypeNormal) as Hnormal.
  pose proof (Create_scans_once_iff_normal Ex.newcomer ClientTypeNotification) as Hnotif.
  destruct (Create ClientTypeNormal Ex.newcomer) as [e1 s1].
  destruct (Create ClientTypeNotification Ex.newcomer) as [e2 s2].
  destruct Hnormal as (_ & _ & _ & Htrace1). destruct Hnotif as (_ & _ & _ & He & Htrace2).
  split; [exact Htrace1|]. split; [exact He|exact Htrace2].
Defined.

(** A second [Start] of [physical0] finds [eth0.10] and changes nothing. *)
Lemma Start_twice_witness :
  HostIdempotent Sim.Host ∧ UpdateIdempotent Sim.Cluster ∧ WarningsApart Sim.Cluster ∧
  Start Ex.fresh = (None, (Start Ex.fresh).2) ∧
  (Start (Start Ex.fresh).2).1 = None ∧
  net (Start (Start Ex.fresh).2).2 = net (Start Ex.fresh).2 ∧
  host (Start (Start Ex.fresh).2).2 = host (Start Ex.fresh).2.
Proof.
  split; [exact Sim_HostIdempotent|]. split; [exact Sim_UpdateIdempotent|].
  split; [exact Sim_WarningsApart|].
  assert (Hfirst : Start Ex.fresh = (None, (Start Ex.fresh).2)) by (vm_compute; reflexivity).
  split; [exact Hfirst|].
  destruct (Start_twice_same Ex.fresh _ Sim_HostIdempotent Sim_UpdateIdempotent
              Sim_WarningsApart Hfirst) as ((calls & Hsecond & _) & _).
  rewrite Hsecond. repeat split; reflexivity.
Defined.

(** Against C2 as stated.  The first [Start] of [physical0] creates
    [eth0.10], fails to persist the volatile config and removes [eth0.10]
    again, with [volatile.last_state.created] left [true] in the config
    of the receiver.  The second [Start] creates [eth0.10], finds the key
    true, writes nothing and returns no error: after two calls [eth0.10]
    exists, after one call it does not, and the database never got the
    key. *)
Lemma Start_twice_after_failure_differs :
  (Start Ex.fresh_db_down).1
  = Some (Wrapf (External "Failed to update network") "Failed saving volatile config" []) ∧
  InterfaceExists "eth0.10" (host (Start Ex.fresh_db_down).2) = false ∧
  (Start (Start Ex.fresh_db_down).2).1 = None ∧
  InterfaceExists "eth0.10" (host (Start (Start Ex.fresh_db_down).2).2) = true ∧
  n_config (net (Start (Start Ex.fresh_db_down).2).2) !! Ex.volatile = Some "true" ∧
  trace (Start (Start Ex.fresh_db_down).2).2
  = trace (Start Ex.fresh_db_down).2
    ++ [LogDebug "Start"; CallVLANInterfaceCreate "eth0" "eth0.10" "10" false;
        CallResolveWarnings "default" 1] ∧
  Sim.c_networks (cluster (Start (Start Ex.fresh_db_down).2).2) = Ex.networks.
Proof. vm_compute. repeat split; reflexivity. Defined.

(** Against C3 as stated.  [Start] of [physical0] creates [eth0.10], the
    persist of the volatile config fails, the revert scope removes
    [eth0.10] and [Start] returns the error; the
    [volatile.last_state.created] of the config, absent before, is [true]
    after. *)
Lemma Start_persist_failure_leaves_volatile :
  VLANInterfaceCreate "eth0" "eth0.10" "10" false (host Ex.fresh_db_down)
  = (Ex.tagged [], (true, None)) ∧
  (Start Ex.fresh_db_down).1
  = Some (Wrapf (External "Failed to update network") "Failed saving volatile config" []) ∧
  host (Start Ex.fresh_db_down).2 = host Ex.fresh_db_down ∧
  n_config (net Ex.fresh_db_down) !! Ex.volatile = None ∧
  n_config (net (Start Ex.fresh_db_down).2) !! Ex.volatile = Some "true".
Proof. vm_compute. repeat split; reflexivity. Defined.

(** The amended property at the same failed start, through [Start]. *)
Lemma Start_failure_witness :
  VLANInterfaceCreate "eth0" "eth0.10" "10" false (host Ex.fresh_db_down)
  = (Ex.tagged [], (true, None)) ∧
  (Start Ex.fresh_db_down).1
  = Some (Wrapf (External "Failed to update network") "Failed saving volatile config" []) ∧
  InterfaceExists "eth0.10" (host (Start Ex.fresh_db_down).2) = false ∧
  cluster (start Ex.fresh_db_down).2 = cluster Ex.fresh_db_down.
Proof.
  assert (Hcreate : VLANInterfaceCreate "eth0" "eth0.10" "10" false (host Ex.fresh_db_down)
                    = (Ex.tagged [], (true, None))) by (vm_compute; reflexivity).
  assert (Hfail : (Start Ex.fresh_db_down).1
                  = Some (Wrapf (External "Failed to update network")
                                "Failed saving volatile config" []))
    by (vm_compute; reflexivity).
  split; [exact Hcreate|]. split; [exact Hfail|].
  destruct (Start_failure_reverts_host Ex.fresh_db_down (Ex.tagged []) _ Hcreate Hfail)
    as (_ & _ & _ & _ & _ & Hgone & Hdb & _).
  split; [apply (Hgone Sim_RemoveRemoves); vm_compute; reflexivity
         |exact (Hdb Sim_UpdateAtomic)].
Defined.

(** [Update] of the pending [physical0] to VLAN 30 only persists. *)
Lemma Update_pending_witness :
  (n_status (net Ex.pending) = NetworkStatusPending ∨
   n_localStatus (net Ex.pending) = NetworkStatusPending) ∧
  host (Update Ex.to_vlan30 "" ClientTypeNormal Ex.pending).2 = host Ex.pending ∧
  trace (Update Ex.to_vlan30 "" ClientTypeNormal Ex.pending).2
  = [LogDebug "Update"; CallCommonUpdate Ex.to_vlan30 "" ClientTypeNormal].
Proof.
  assert (Hpending : n_status (net Ex.pending) = NetworkStatusPending ∨
                     n_localStatus (net Ex.pending) = NetworkStatusPending)
    by (left; reflexivity).
  split; [exact Hpending|].
  pose proof (Update_pending_only_persists Ex.pending Ex.to_vlan30 "" ClientTypeNormal
                Hpending) as Hupdate.
  assert (Hcc : configChanged (net Ex.pending) Ex.to_vlan30
                = (true, ["vlan"], api.mkNetworkPut Ex.vlan10 "", None))
    by (vm_compute; reflexivity).
  rewrite Hcc in Hupdate.
  destruct (Update Ex.to_vlan30 "" ClientTypeNormal Ex.pending) as [err s'].
  destruct Hupdate as (Hhost & calls & Htrace & _ & _ & Hcalls & _).
  split; [exact Hhost|]. cbn [snd]. rewrite Htrace, Hcalls. reflexivity.
Defined.

(** [Update] of the started [physical0] with the description and config
    it has does nothing. *)
Lemma Update_identical_witness :
  ConfigChangedIdentical Sim.Host Sim.Cluster ∧
  Update (api.mkNetworkPut Ex.vlan10_created "") "" ClientTypeNormal Ex.started
  = (None, mkState (net Ex.started) (host Ex.started) (cluster Ex.started)
                   [LogDebug "Update"]).
Proof.
  split; [exact Sim_ConfigChangedIdentical|].
  exact (Update_identical_is_noop Ex.started "" ClientTypeNormal Sim_ConfigChangedIdentical).
Defined.



(** Against C8 as stated.  [physical0] has VLAN 10, its
    [volatile.last_state.created] is [true] and [eth0.10] exists;
    [InterfaceRemove] fails.  [Stop] returns the error at once: the key
    is still in the config, nothing is persisted, and [eth0.10] is still
    there. *)
Lemma Stop_remove_failure_keeps_volatile :
  get (n_config (net Ex.started_remove_fails)) "vlan" = "10" ∧
  IsTrue (get (n_config (net Ex.started_remove_fails)) Ex.volatile) = true ∧
  InterfaceExists "eth0.10" (host Ex.started_remove_fails) = true ∧
  (Stop Ex.started_remove_fails).1 = Some (External "Failed to remove interface") ∧
  n_config (net (Stop Ex.started_remove_fails).2) !! Ex.volatile = Some "true" ∧
  trace (Stop Ex.started_remove_fails).2 = [LogDebug "Stop"; CallInterfaceRemove "eth0.10"] ∧
  InterfaceExists "eth0.10" (host (Stop Ex.started_remove_fails).2) = true.
Proof. vm_compute. repeat split; reflexivity. Defined.

(** The amended property: [Stop] of the started [physical0] removes
    [eth0.10], deletes the key and persists. *)
Lemma Stop_removes_witness :
  (Stop Ex.started).1 = None ∧
  ∃ calls, trace (Stop Ex.started).2 = calls ∧
    CallInterfaceRemove "eth0.10" ∈ calls ∧
    n_config (net (Stop Ex.started).2) = Ex.vlan10 ∧
    CallUpdateNetwork 1 "" Ex.vlan10 ∈ calls.
Proof.
  assert (Hok : (Stop Ex.started).1 = None) by (vm_compute; reflexivity).
  split; [exact Hok|].
  pose proof (Stop_removes_iff_created_vlan Ex.started) as Hstop.
  cbv zeta in Hstop.
  destruct (Stop Ex.started) as [err s']. cbn [fst snd] in *.
  destruct Hstop as (calls & Htrace & Hiff & _ & Hnil & _).
  exists calls. split; [exact Htrace|].
  destruct (Hnil Hok) as (Hconfig & Hcall & _).
  split; [apply Hiff; vm_compute; reflexivity|].
  split; [rewrite Hconfig; vm_compute; reflexivity|].
  replace Ex.vlan10 with (delete Ex.volatile (n_config (net Ex.started)))
    by (vm_compute; reflexivity).
  exact Hcall.
Defined.

(** [Stop] of the untagged network resets the MTU of [eth0] and leaves
    [eth0] in place. *)
Lemma Stop_untagged_witness :
  get (n_config (net Ex.untagged)) "vlan" = "" ∧
  host (Stop Ex.untagged).2 = (SetMTU "eth0" "1500" (host Ex.untagged)).1 ∧
  InterfaceExists "eth0" (host (Stop Ex.untagged).2) = true ∧
  ∃ calls, trace (Stop Ex.untagged).2 = calls ∧
           ∀ name, CallInterfaceRemove name ∉ calls.
Proof.
  assert (Hvlan : get (n_config (net Ex.untagged)) "vlan" = "") by reflexivity.
  split; [exact Hvlan|].
  pose proof (Stop_untagged_never_removes Ex.untagged Hvlan) as Hstop.
  cbv zeta in Hstop.
  destruct (Stop Ex.untagged) as [err s']. cbn [fst snd] in *.
  destruct Hstop as (Hhost & calls & Htrace & Hnever & _).
  split; [exact Hhost|]. split; [rewrite Hhost; vm_compute; reflexivity|].
  exists calls. split; [exact Htrace|exact Hnever].
Defined.

(** Against C9 as stated.  On the pending [physical0] the
    [Update] to VLAN 30 succeeds, the client type is normal and the key
    [vlan] changed, and no dependency notification is sent. *)
Lemma Update_pending_sends_no_notification :
  configChanged (net Ex.pending) Ex.to_vlan30
  = (true, ["vlan"], api.mkNetworkPut Ex.vlan10 "", None) ∧
  (Update Ex.to_vlan30 "" ClientTypeNormal Ex.pending).1 = None ∧
  n_config (net (Update Ex.to_vlan30 "" ClientTypeNormal Ex.pending).2)
  = api.Config Ex.to_vlan30 ∧
  trace (Update Ex.to_vlan30 "" ClientTypeNormal Ex.pending).2
  = [LogDebug "Update"; CallCommonUpdate Ex.to_vlan30 "" ClientTypeNormal] ∧
  notifications (trace (Update Ex.to_vlan30 "" ClientTypeNormal Ex.pending).2) = [].
Proof. vm_compute. repeat split; reflexivity. Defined.

(** The amended property: the [Update] of the started [physical0] to
    VLAN 30 sends the notification, once. *)
Lemma Update_notifies_witness :
  (Update Ex.to_vlan30 "" ClientTypeNormal Ex.started).1 = None ∧
  ∃ calls, trace (Update Ex.to_vlan30 "" ClientTypeNormal Ex.started).2 = calls ∧
           notifications calls = [[Ex.volatile; "vlan"]].
Proof.
  assert (Hok : (Update Ex.to_vlan30 "" ClientTypeNormal Ex.started).1 = None)
    by (vm_compute; reflexivity).
  split; [exact Hok|].
  pose proof (Update_notifies_iff Ex.started Ex.to_vlan30 "" ClientTypeNormal) as Hupdate.
  assert (Hcc : configChanged (net Ex.started) Ex.to_vlan30
                = (true, [Ex.volatile; "vlan"], api.mkNetworkPut Ex.vlan10_created "", None))
    by (vm_compute; reflexivity).
  rewrite Hcc in Hupdate. cbv zeta in Hupdate.
  destruct (Update Ex.to_vlan30 "" ClientTypeNormal Ex.started) as [err s'].
  cbn [fst snd] in *. subst err.
  destruct Hupdate as ((calls & Htrace & Hsent) & _).
  exists calls. split; [exact Htrace|exact Hsent].
Defined.

(** ** More properties of the driver *)

Section Lifecycle_properties.
Context {Host Cluster : Type}.
Context `{!InterfaceController Host, !ClusterStore Cluster, !Common Host Cluster}.

Implicit Types s : State Host Cluster.

Lemma debugLog_app (a b : list Call) : debugLog (a ++ b) = debugLog a ++ debugLog b.
Proof. apply omap_app. Qed.

Lemma checks_app (a b : list Call) : checks (a ++ b) = checks a ++ checks b.
Proof. apply omap_app. Qed.

Lemma removals_app (a b : list Call) : removals (a ++ b) = removals a ++ removals b.
Proof. apply omap_app. Qed.

Lemma persisted_app (a b : list Call) : persisted (a ++ b) = persisted a ++ persisted b.
Proof. apply omap_app. Qed.

(** What [Stop] adds to the trace: its log line, no check. *)
Lemma Stop_observed s :
  ∃ calls, trace (Stop s).2 = trace s ++ calls ∧
    debugLog calls = ["Stop"] ∧ checks calls = [].
Proof.
  unfold Stop. run.
  destruct (_ && _ && _); run.
  - destruct (InterfaceRemove _ _) as [h1 [e|]]; run.
    { eexists. rewrite <- !app_assoc. split; done. }
    destruct (_ && _); run.
    + destruct (SetMTU _ _ _) as [h2 [e|]]; run.
      { eexists. rewrite <- !app_assoc. split; done. }
      destruct (UpdateNetwork _ _ _ _) as [c1 [e|]]; run;
        eexists; rewrite <- !app_assoc; split; done.
    + destruct (UpdateNetwork _ _ _ _) as [c1 [e|]]; run;
        eexists; rewrite <- !app_assoc; split; done.
  - destruct (_ && _); run.
    + destruct (SetMTU _ _ _) as [h2 [e|]]; run.
      { eexists. rewrite <- !app_assoc. split; done. }
      destruct (UpdateNetwork _ _ _ _) as [c1 [e|]]; run;
        eexists; rewrite <- !app_assoc; split; done.
    + destruct (UpdateNetwork _ _ _ _) as [c1 [e|]]; run;
        eexists; rewrite <- !app_assoc; split; done.
Qed.

(** What [start] adds to the trace: its log line, no check. *)
Lemma start_observed s :
  ∃ calls, trace (start s).2 = trace s ++ calls ∧
    debugLog calls = ["Start"] ∧ checks calls = [].
Proof.
  unfold start. run.
  destruct (VLANInterfaceCreate _ _ _ _ _) as [h1 [created [e|]]]; run.
  { eexists. rewrite <- !app_assoc. split; done. }
  destruct (bool_decide (get (n_config (net s)) "mtu" ≠ "")); run.
  - destruct (SetMTU _ _ _) as [h2 [e|]]; run.
    { destruct created; run;
        [destruct (InterfaceRemove _ _) as [h3 e3]; run|];
        eexists; rewrite <- !app_assoc; split; done. }
    destruct (negb (IsTrue _)); run.
    + destruct (UpdateNetwork _ _ _ _) as [c1 [e|]]; run.
      { destruct created; run;
          [destruct (InterfaceRemove _ _) as [h3 e3]; run|];
          eexists; rewrite <- !app_assoc; split; done. }
      eexists; rewrite <- !app_assoc; split; done.
    + eexists; rewrite <- !app_assoc; split; done.
  - destruct (negb (IsTrue _)); run.
    + destruct (UpdateNetwork _ _ _ _) as [c1 [e|]]; run.
      { destruct created; run;
          [destruct (InterfaceRemove _ _) as [h3 e3]; run|];
          eexists; rewrite <- !app_assoc; split; done. }
      eexists; rewrite <- !app_assoc; split; done.
    + eexists; rewrite <- !app_assoc; split; done.
Qed.

Lemma Start_observed s :
  ∃ calls, trace (Start s).2 = trace s ++ calls ∧
    debugLog calls = ["Start"] ∧ checks calls = [].
Proof.
  destruct (start_observed s) as (calls & Htr & Hlog & Hck).
  unfold Start. run. destruct (start s) as [[e|] s1]; run; cbn [snd] in Htr.
  - destruct (UpsertWarningLocalNode _ _ _ _) as [c1 [e1|]]; run;
      (eexists; rewrite Htr, <- !app_assoc; split; [done|];
       rewrite debugLog_app, checks_app, Hlog, Hck; done).
  - destruct (ResolveWarnings _ _ _) as [c1 [e1|]]; run;
      (eexists; rewrite Htr, <- !app_assoc; split; [done|];
       rewrite debugLog_app, checks_app, Hlog, Hck; done).
Qed.


(** X1.  When the scan of the created networks fails, [Create] with the
    normal client type returns that failure, wrapped as "Failed to load
    all networks", and not a conflict; so does an [Update] of the parent
    or of the VLAN of a record that is not pending and not in use, before
    it stops anything.  Either leaves the receiver, the host and the
    database as they were. *)
Theorem scan_failure_is_reported s cause :
  GetCreatedNetworks (cluster s) = inl cause →
  let failure := Wrapf cause "Failed to load all networks" [] in
  Create ClientTypeNormal s
  = (Some failure,
     mkState (net s) (host s) (cluster s)
             (trace s ++ [LogDebug "Create"; CallGetCreatedNetworks])) ∧
  ∀ newNetwork targetNode changedKeys oldNetwork,
    n_status (net s) ≠ NetworkStatusPending →
    n_localStatus (net s) ≠ NetworkStatusPending →
    configChanged (net s) newNetwork = (true, changedKeys, oldNetwork, None) →
    "vlan" ∈ changedKeys ∨ "parent" ∈ changedKeys →
    IsUsed (net s) (cluster s) = (false, None) →
    Update newNetwork targetNode ClientTypeNormal s
    = (Some failure,
       mkState (net s) (host s) (cluster s)
               (trace s ++ [LogDebug "Update"; CallIsUsed; CallGetCreatedNetworks])).
Proof.
  intros Hget failure. split.
  - unfold Create, checkParentUse.
    change (bool_decide (ClientTypeNormal = ClientTypeNormal)) with true.
    run. rewrite Hget. run. by rewrite <- !app_assoc.
  - intros newNetwork targetNode changedKeys oldNetwork Hst Hlst Hcc Hkeys Hused.
    assert (Hchanged :
      StringInSlice "vlan" changedKeys || StringInSlice "parent" changedKeys = true).
    { unfold StringInSlice. destruct Hkeys as [H'|H']; rewrite (bool_decide_eq_true_2 _ H');
        [done|by rewrite orb_true_r]. }
    unfold Update, checkParentUse. run. rewrite Hcc. run.
    rewrite (bool_decide_eq_false_2 _ Hst), (bool_decide_eq_false_2 _ Hlst), Hchanged.
    change (bool_decide (ClientTypeNormal = ClientTypeNormal)) with true.
    run. rewrite Hused. run.
    change (bool_decide (@None error ≠ None)) with false. run.
    rewrite Hget. run. by rewrite <- !app_assoc.
Qed.

Lemma claimsClash_sym (a b : StringMap) : claimsClash a b → claimsClash b a.
Proof. unfold claimsClash. intros [Hp [Hv|[Hv|Hv]]]; auto. Qed.

Lemma parentClaimed_singleton name ourConfig id (other : api.Network) :
  parentClaimed name ourConfig {[project_Default := {[id := other]}]} ↔
  api.Name other ≠ name ∧ claimsClash (api.Config other) ourConfig.
Proof.
  unfold parentClaimed. split.
  - intros (networks & id' & network & Hp & Hn & Hrest).
    apply lookup_singleton_Some in Hp as [_ <-].
    apply lookup_singleton_Some in Hn as [_ <-]. done.
  - intros Hrest. exists {[id := other]}, id, other.
    by rewrite !lookup_singleton_eq.
Qed.

(** X2.  The exclusivity check is symmetric: of two records with
    different names, the first finds its parent in use by the second
    exactly when the second finds its parent in use by the first. *)
Theorem parent_clash_is_symmetric (a b : api.Network) (ida idb : Z) :
  api.Name a ≠ api.Name b →
  scanProjects (api.Name a) (api.Config a) {[project_Default := {[idb := b]}]}
  = scanProjects (api.Name b) (api.Config b) {[project_Default := {[ida := a]}]}.
Proof.
  intros Hne. apply eq_true_iff_eq.
  rewrite !scanProjects_true, !parentClaimed_singleton.
  split; intros [_ Hc]; (split; [congruence|by apply claimsClash_sym]).
Qed.


(** X3.  [start] calls [InterfaceRemove] only to undo its own work: on no
    interface at all when it returns no error, and otherwise at most
    once, on the host interface of the network, and only when its own
    call of [VLANInterfaceCreate] had just created that interface. *)
Theorem start_removes_only_what_it_created s :
  let cfg := n_config (net s) in
  let hostName := GetHostDevice (get cfg "parent") (get cfg "vlan") in
  let '(err, s') := start s in
  ∃ calls, trace s' = trace s ++ calls ∧
    (removals calls = [] ∨
     (removals calls = [hostName] ∧ err ≠ None ∧
      (VLANInterfaceCreate (get cfg "parent") hostName (get cfg "vlan")
         (IsTrue (get cfg "gvrp")) (host s)).2 = (true, None))).
Proof.
  intros cfg hostName. unfold start. run. fold cfg. fold hostName.
  destruct (VLANInterfaceCreate _ _ _ _ _) as [h1 [created [e|]]]; run.
  { eexists. rewrite <- !app_assoc. split; [done|]. by left. }
  destruct (bool_decide (get cfg "mtu" ≠ "")); run.
  - destruct (SetMTU _ _ _) as [h2 [e|]]; run.
    { destruct created; run;
        [destruct (InterfaceRemove _ _) as [h3 e3]; run|];
        eexists; rewrite <- !app_assoc; (split; [done|]); [by right|by left]. }
    destruct (negb (IsTrue _)); run.
    + destruct (UpdateNetwork _ _ _ _) as [c1 [e|]]; run.
      { destruct created; run;
          [destruct (InterfaceRemove _ _) as [h3 e3]; run|];
          eexists; rewrite <- !app_assoc; (split; [done|]); [by right|by left]. }
      eexists; rewrite <- !app_assoc; split; [done|]; by left.
    + eexists; rewrite <- !app_assoc; split; [done|]; by left.
  - destruct (negb (IsTrue _)); run.
    + destruct (UpdateNetwork _ _ _ _) as [c1 [e|]]; run.
      { destruct created; run;
          [destruct (InterfaceRemove _ _) as [h3 e3]; run|];
          eexists; rewrite <- !app_assoc; (split; [done|]); [by right|by left]. }
      eexists; rewrite <- !app_assoc; split; [done|]; by left.
    + eexists; rewrite <- !app_assoc; split; [done|]; by left.
Qed.

(** X4.  Once [volatile.last_state.created] reads as true, [start] never
    overwrites it: whatever the host calls do and whether or not [start]
    fails, it leaves the receiver and the database as they were and makes
    no call of [tx.UpdateNetwork]. *)
Theorem start_keeps_recorded_creation s :
  IsTrue (get (n_config (net s)) "volatile.last_state.created") = true →
  let '(err, s') := start s in
  net s' = net s ∧ cluster s' = cluster s ∧
  ∃ calls, trace s' = trace s ++ calls ∧ persisted calls = [].
Proof.
  intros Hv. unfold start. run. rewrite Hv. run.
  destruct (VLANInterfaceCreate _ _ _ _ _) as [h1 [created [e|]]]; run.
  { split; [done|]. split; [done|]. eexists. rewrite <- !app_assoc. split; done. }
  destruct (bool_decide (get (n_config (net s)) "mtu" ≠ "")); run.
  - destruct (SetMTU _ _ _) as [h2 [e|]]; run.
    { destruct created; run;
        [destruct (InterfaceRemove _ _) as [h3 e3]; run|];
        (split; [done|]; split; [done|]; eexists; rewrite <- !app_assoc; split; done). }
    split; [done|]. split; [done|]. eexists. rewrite <- !app_assoc. split; done.
  - split; [done|]. split; [done|]. eexists. rewrite <- !app_assoc. split; done.
Qed.

(** X5.  When [volatile.last_state.created] does not read as true, a
    [start] that returns no error has recorded whether it created the host
    interface: the key holds [true] when [VLANInterfaceCreate] created
    the interface and [false] when it did not, nothing else of the
    receiver changed, and the config with the key is what was written to
    the database, in one call of [tx.UpdateNetwork]. *)
Theorem start_records_whether_it_created s s' :
  let cfg := n_config (net s) in
  let hostName := GetHostDevice (get cfg "parent") (get cfg "vlan") in
  IsTrue (get cfg "volatile.last_state.created") = false →
  start s = (None, s') →
  ∃ h1 created,
    VLANInterfaceCreate (get cfg "parent") hostName (get cfg "vlan")
      (IsTrue (get cfg "gvrp")) (host s) = (h1, (created, None)) ∧
    net s' = set_config (<["volatile.last_state.created" := Sprintf_t created]> cfg) (net s) ∧
    UpdateNetwork (n_id (net s)) (n_description (net s)) (n_config (net s')) (cluster s)
    = (cluster s', None) ∧
    ∃ calls, trace s' = trace s ++ calls ∧ persisted calls = [n_config (net s')].
Proof.
  intros cfg hostName Hv. unfold start. run. fold cfg. fold hostName. rewrite Hv. run.
  destruct (VLANInterfaceCreate _ _ _ _ _) as [h1 [created [e|]]]; run; [done|].
  destruct (bool_decide (get cfg "mtu" ≠ "")); run.
  - destruct (SetMTU _ _ _) as [h2 [e|]]; run.
    { destruct created; run;
        [destruct (InterfaceRemove _ _) as [h3 e3]; run|]; done. }
    destruct (UpdateNetwork _ _ _ _) as [c1 [e|]] eqn:Hupd; run.
    { destruct created; run;
        [destruct (InterfaceRemove _ _) as [h3 e3]; run|]; done. }
    intros [= <-]. run. exists h1, created. split; [done|]. split; [done|].
    split; [done|]. eexists. rewrite <- !app_assoc. split; done.
  - destruct (UpdateNetwork _ _ _ _) as [c1 [e|]] eqn:Hupd; run.
    { destruct created; run;
        [destruct (InterfaceRemove _ _) as [h3 e3]; run|]; done. }
    intros [= <-]. run. exists h1, created. split; [done|]. split; [done|].
    split; [done|]. eexists. rewrite <- !app_assoc. split; done.
Qed.


(** What a [start] that returns no error leaves of the host and of the
    receiver. *)
Lemma start_ok s s1 :
  let cfg := n_config (net s) in
  let hostName := GetHostDevice (get cfg "parent") (get cfg "vlan") in
  start s = (None, s1) →
  ∃ h1 created,
    VLANInterfaceCreate (get cfg "parent") hostName (get cfg "vlan")
      (IsTrue (get cfg "gvrp")) (host s) = (h1, (created, None)) ∧
    host s1 = (if bool_decide (get cfg "mtu" ≠ "")
               then (SetMTU hostName (get cfg "mtu") h1).1 else h1) ∧
    (get cfg "mtu" ≠ "" → (SetMTU hostName (get cfg "mtu") h1).2 = None) ∧
    n_config (net s1)
    = (if IsTrue (get cfg "volatile.last_state.created") then cfg
       else <["volatile.last_state.created" := Sprintf_t created]> cfg).
Proof.
  intros cfg hostName. unfold start. run. fold cfg. fold hostName.
  destruct (VLANInterfaceCreate _ _ _ _ _) as [h1 [created [e|]]]; run; [done|].
  destruct (bool_decide (get cfg "mtu" ≠ "")) eqn:Hm; run.
  - destruct (SetMTU _ _ _) as [h2 [e|]] eqn:Hset; run.
    { destruct created; run;
        [destruct (InterfaceRemove _ _) as [h3 e3]; run|]; done. }
    destruct (IsTrue _); run.
    + intros [= <-]. exists h1, created. by rewrite Hset.
    + destruct (UpdateNetwork _ _ _ _) as [c1 [e|]]; run.
      { destruct created; run;
          [destruct (InterfaceRemove _ _) as [h3 e3]; run|]; done. }
      intros [= <-]. exists h1, created. by rewrite Hset.
  - apply bool_decide_eq_false in Hm.
    destruct (IsTrue _); run.
    + intros [= <-]. by exists h1, created.
    + destruct (UpdateNetwork _ _ _ _) as [c1 [e|]]; run.
      { destruct created; run;
          [destruct (InterfaceRemove _ _) as [h3 e3]; run|]; done. }
      intros [= <-]. by exists h1, created.
Qed.

(** The calls of [InterfaceRemove] by [Stop]. *)
Lemma Stop_removals s :
  let cfg := n_config (net s) in
  let hostName := GetHostDevice (get cfg "parent") (get cfg "vlan") in
  ∃ calls, trace (Stop s).2 = trace s ++ calls ∧
    removals calls =
      (if bool_decide (get cfg "vlan" ≠ "")
          && IsTrue (get cfg "volatile.last_state.created")
          && InterfaceExists hostName (host s)
       then [hostName] else []).
Proof.
  intros cfg hostName. unfold Stop. run. fold cfg. fold hostName.
  destruct (_ && _ && _); run.
  - destruct (InterfaceRemove _ _) as [h1 [e|]]; run.
    { eexists. rewrite <- !app_assoc. split; done. }
    destruct (_ && _); run.
    + destruct (SetMTU _ _ _) as [h2 [e|]]; run.
      { eexists. rewrite <- !app_assoc. split; done. }
      destruct (UpdateNetwork _ _ _ _) as [c1 [e|]]; run;
        eexists; rewrite <- !app_assoc; split; done.
    + destruct (UpdateNetwork _ _ _ _) as [c1 [e|]]; run;
        eexists; rewrite <- !app_assoc; split; done.
  - destruct (_ && _); run.
    + destruct (SetMTU _ _ _) as [h2 [e|]]; run.
      { eexists. rewrite <- !app_assoc. split; done. }
      destruct (UpdateNetwork _ _ _ _) as [c1 [e|]]; run;
        eexists; rewrite <- !app_assoc; split; done.
    + destruct (UpdateNetwork _ _ _ _) as [c1 [e|]]; run;
        eexists; rewrite <- !app_assoc; split; done.
Qed.

(** X6.  What [Start] created, [Stop] removes.  Under the contracts of
    the host calls, when a [Start] of a network with a VLAN returned no
    error and its [VLANInterfaceCreate] had created the host interface,
    the [Stop] that follows calls [InterfaceRemove] on that interface, and
    on no other. *)
Theorem Stop_removes_what_Start_created s s1 h1 :
  let cfg := n_config (net s) in
  let hostName := GetHostDevice (get cfg "parent") (get cfg "vlan") in
  HostIdempotent Host →
  get cfg "vlan" ≠ "" →
  VLANInterfaceCreate (get cfg "parent") hostName (get cfg "vlan")
    (IsTrue (get cfg "gvrp")) (host s) = (h1, (true, None)) →
  Start s = (None, s1) →
  ∃ calls, trace (Stop s1).2 = trace s1 ++ calls ∧ removals calls = [hostName].
Proof.
  intros cfg hostName [Hreal Hexist Hkeep Hagain Htrue] Hvlan Hcreate HStart.
  destruct (Start_result s) as (Herr & Hnet & Hhost & _).
  rewrite HStart in Herr, Hnet, Hhost. cbn [fst snd] in Herr, Hnet, Hhost.
  destruct (start s) as [err0 s0] eqn:Hs0. cbn [fst snd] in Herr, Hnet, Hhost. subst err0.
  destruct (start_ok s s0 Hs0) as (h1' & created & Hc & Hh & Hm & Hcfg).
  fold cfg in Hc, Hh, Hm, Hcfg. fold hostName in Hc, Hh, Hm.
  rewrite Hcreate in Hc. injection Hc as <- <-.
  assert (Hcfg1 : get (n_config (net s1)) "parent" = get cfg "parent" ∧
                  get (n_config (net s1)) "vlan" = get cfg "vlan" ∧
                  IsTrue (get (n_config (net s1)) "volatile.last_state.created") = true).
  { rewrite Hnet, Hcfg.
    destruct (IsTrue (get cfg "volatile.last_state.created")) eqn:Hv; [done|].
    rewrite !get_insert_ne by done. by rewrite get_insert_eq. }
  destruct Hcfg1 as (Hp1 & Hv1 & Hvol1).
  assert (Hex : InterfaceExists hostName (host s1) = true).
  { rewrite Hhost, Hh.
    destruct (Hreal _ _ _ _ _ _ _ Hcreate) as [Hx|Hx]; [done|].
    destruct (bool_decide (get cfg "mtu" ≠ "")) eqn:Hmtu; [|done].
    apply bool_decide_eq_true in Hmtu. specialize (Hm Hmtu).
    destruct (SetMTU hostName (get cfg "mtu") h1) as [h2 r] eqn:Hset.
    cbn [fst snd] in *. subst r. by rewrite (Hkeep _ _ _ _ hostName Hset). }
  destruct (Stop_removals s1) as (calls & Htr & Hrm).
  exists calls. split; [done|]. rewrite Hrm, Hp1, Hv1, Hvol1. fold hostName. rewrite Hex.
  by rewrite (bool_decide_eq_true_2 _ Hvlan).
Qed.

(** X7.  What [Start] found in place, [Stop] leaves in place.  When
    [volatile.last_state.created] did not read as true, the string
    [false] does not read as true, and a [Start] that returned no error
    had not created the host interface, the [Stop] that follows calls
    [InterfaceRemove] on no interface. *)
Theorem Stop_keeps_what_Start_found s s1 h1 :
  let cfg := n_config (net s) in
  let hostName := GetHostDevice (get cfg "parent") (get cfg "vlan") in
  IsTrue "false" = false →
  IsTrue (get cfg "volatile.last_state.created") = false →
  VLANInterfaceCreate (get cfg "parent") hostName (get cfg "vlan")
    (IsTrue (get cfg "gvrp")) (host s) = (h1, (false, None)) →
  Start s = (None, s1) →
  ∃ calls, trace (Stop s1).2 = trace s1 ++ calls ∧ removals calls = [].
Proof.
  intros cfg hostName Hfalse Hv Hcreate HStart.
  destruct (Start_result s) as (Herr & Hnet & Hhost & _).
  rewrite HStart in Herr, Hnet, Hhost. cbn [fst snd] in Herr, Hnet, Hhost.
  destruct (start s) as [err0 s0] eqn:Hs0. cbn [fst snd] in Herr, Hnet, Hhost. subst err0.
  destruct (start_ok s s0 Hs0) as (h1' & created & Hc & _ & _ & Hcfg).
  fold cfg in Hc, Hcfg. fold hostName in Hc.
  rewrite Hcreate in Hc. injection Hc as <- <-. rewrite Hv in Hcfg.
  destruct (Stop_removals s1) as (calls & Htr & Hrm).
  exists calls. split; [done|]. rewrite Hrm, Hnet, Hcfg, get_insert_eq.
  cbn [Sprintf_t]. rewrite Hfalse. by rewrite andb_false_r.
Qed.

(** A [Stop] that returns no error has deleted
    [volatile.last_state.created] from the config of the receiver. *)
Lemma Stop_ok_config s s1 :
  Stop s = (None, s1) →
  n_config (net s1) = delete "volatile.last_state.created" (n_config (net s)).
Proof.
  unfold Stop. run.
  destruct (_ && _ && _); run.
  - destruct (InterfaceRemove _ _) as [h1 [e|]]; run; [done|].
    destruct (_ && _); run.
    + destruct (SetMTU _ _ _) as [h2 [e|]]; run; [done|].
      destruct (UpdateNetwork _ _ _ _) as [c1 [e|]]; run; [done|]. by intros [= <-].
    + destruct (UpdateNetwork _ _ _ _) as [c1 [e|]]; run; [done|]. by intros [= <-].
  - destruct (_ && _); run.
    + destruct (SetMTU _ _ _) as [h2 [e|]]; run; [done|].
      destruct (UpdateNetwork _ _ _ _) as [c1 [e|]]; run; [done|]. by intros [= <-].
    + destruct (UpdateNetwork _ _ _ _) as [c1 [e|]]; run; [done|]. by intros [= <-].
Qed.

(** X8.  A [Stop] right after a [Stop] that returned no error removes
    nothing: when the empty string does not read as true it calls
    [InterfaceRemove] on no interface, and, whether it fails or not, it
    leaves the config of the receiver as the first [Stop] left it,
    without [volatile.last_state.created]. *)
Theorem Stop_twice_removes_once s s1 :
  IsTrue "" = false →
  Stop s = (None, s1) →
  n_config (net s1) !! "volatile.last_state.created" = None ∧
  n_config (net (Stop s1).2) = n_config (net s1) ∧
  ∃ calls, trace (Stop s1).2 = trace s1 ++ calls ∧ removals calls = [].
Proof.
  intros Hempty HStop.
  pose proof (Stop_ok_config s s1 HStop) as Hcfg.
  assert (Hgone : n_config (net s1) !! "volatile.last_state.created" = None).
  { rewrite Hcfg. apply lookup_delete_eq. }
  split; [done|]. split.
  - unfold Stop. run.
    rewrite (delete_id _ _ Hgone).
    destruct (_ && _ && _); run.
    + destruct (InterfaceRemove _ _) as [h1 [e1|]]; run; [done|].
      destruct (_ && _); run.
      * destruct (SetMTU _ _ _) as [h2 [e1|]]; run; [done|].
        by destruct (UpdateNetwork _ _ _ _) as [c1 [e1|]]; run.
      * by destruct (UpdateNetwork _ _ _ _) as [c1 [e1|]]; run.
    + destruct (_ && _); run.
      * destruct (SetMTU _ _ _) as [h2 [e1|]]; run; [done|].
        by destruct (UpdateNetwork _ _ _ _) as [c1 [e1|]]; run.
      * by destruct (UpdateNetwork _ _ _ _) as [c1 [e1|]]; run.
  - destruct (Stop_removals s1) as (calls & Htr & Hrm).
    exists calls. split; [done|]. rewrite Hrm.
    assert (Hget : get (n_config (net s1)) "volatile.last_state.created" = "").
    { unfold get. by rewrite Hgone. }
    rewrite Hget, Hempty. by rewrite andb_false_r.
Qed.

(** X9.  [Stop] never resets the MTU of an interface it removed: when an
    interface that was removed without error is gone, a [Stop] that called
    [InterfaceRemove] makes no call of [SetMTU]. *)
Theorem Stop_resets_MTU_only_of_what_remains s :
  RemoveRemoves Host →
  let '(err, s') := Stop s in
  ∃ calls, trace s' = trace s ++ calls ∧
    (removals calls = [] ∨ ∀ name mtu, CallSetMTU name mtu ∉ calls).
Proof.
  intros Hrr. unfold Stop. run.
  destruct (_ && _ && _); run.
  - destruct (InterfaceRemove _ _) as [h1 [e|]] eqn:Hrm; run.
    { eexists. rewrite <- !app_assoc. split; [done|]. right. in_calls. }
    rewrite (Hrr _ _ _ Hrm), andb_false_r. run.
    destruct (UpdateNetwork _ _ _ _) as [c1 [e|]]; run;
      (eexists; rewrite <- !app_assoc; split; [done|]; right; in_calls).
  - destruct (_ && _); run.
    + destruct (SetMTU _ _ _) as [h2 [e|]]; run.
      { eexists. rewrite <- !app_assoc. split; [done|]. by left. }
      destruct (UpdateNetwork _ _ _ _) as [c1 [e|]]; run;
        (eexists; rewrite <- !app_assoc; split; [done|]; by left).
    + destruct (UpdateNetwork _ _ _ _) as [c1 [e|]]; run;
        (eexists; rewrite <- !app_assoc; split; [done|]; by left).
Qed.


(** One step through [Update], given what [Stop] and [Start] add to the
    trace. *)
Ltac observe_step stop_observed start_observed :=
  match goal with
  | |- context [Stop ?s0] =>
      let H := fresh "Htr" in let Hl := fresh "Hlog" in let Hc := fresh "Hck" in
      destruct (stop_observed s0) as (? & H & Hl & Hc);
      destruct (Stop s0) as [[?|] ?]; cbn [fst snd trace] in H
  | |- context [Start ?s0] =>
      let H := fresh "Htr" in let Hl := fresh "Hlog" in let Hc := fresh "Hck" in
      destruct (start_observed s0) as (? & H & Hl & Hc);
      destruct (Start s0) as [[?|] ?]; cbn [fst snd trace] in H
  | |- context [common_update ?a ?b ?c ?n ?cl] =>
      destruct (common_update a b c n cl) as [[? ?] [?|]]
  | |- context [IsUsed ?n ?c] => destruct (IsUsed n c) as [[|] [?|]]
  | |- context [GetCreatedNetworks ?c] => destruct (GetCreatedNetworks c) as [?|?]
  | |- context [notifyDependentNetworks ?k ?n ?h ?c] =>
      destruct (notifyDependentNetworks k n h c) as [? ?]
  | |- context [scanProjects ?a ?b ?c] => destruct (scanProjects a b c)
  | |- context [bool_decide (Some ?e ≠ None)] =>
      change (bool_decide (Some e ≠ None)) with true
  | |- context [bool_decide (@None error ≠ None)] =>
      change (bool_decide (@None error ≠ None)) with false
  end.

(** X10.  [Update] checks in the database once per cluster, and only for
    a change of identity: it calls [n.IsUsed], once and before anything
    else, exactly when the change is to be applied (no error of
    [configChanged], a database update needed, the record not pending),
    the client type is normal and the changed keys include parent or
    vlan; it scans the created networks, once, exactly when moreover the
    network is not in use and [IsUsed] returned no error.  With the
    notification client type it makes neither call. *)
Theorem Update_checks_once_per_cluster s newNetwork targetNode clientType :
  let '(dbUpdateNeeeded, changedKeys, oldNetwork, cerr) :=
    configChanged (net s) newNetwork in
  let pending :=
    bool_decide (n_status (net s) = NetworkStatusPending)
    || bool_decide (n_localStatus (net s) = NetworkStatusPending) in
  let hostNameChanged :=
    StringInSlice "vlan" changedKeys || StringInSlice "parent" changedKeys in
  let '(isUsed, uerr) := IsUsed (net s) (cluster s) in
  let '(err, s') := Update newNetwork targetNode clientType s in
  ∃ calls, trace s' = trace s ++ calls ∧
    checks calls =
      if bool_decide (cerr = None) && dbUpdateNeeeded && negb pending
         && bool_decide (clientType = ClientTypeNormal) && hostNameChanged
      then CallIsUsed ::
           (if isUsed || bool_decide (uerr ≠ None) then [] else [CallGetCreatedNetworks])
      else [].
Proof.
  unfold Update. run.
  destruct (configChanged (net s) newNetwork) as [[[upd changedKeys] oldNetwork] cerr]. run.
  destruct cerr as [e|]; run.
  { destruct (IsUsed _ _) as [isUsed uerr]. eexists. split; done. }
  change (bool_decide (@None error = None)) with true.
  destruct upd; run; cycle 1.
  { destruct (IsUsed _ _) as [isUsed uerr]. eexists. split; done. }
  destruct (bool_decide _ || bool_decide _) eqn:Hpending; run.
  { destruct (IsUsed _ _) as [isUsed uerr].
    destruct (common_update _ _ _ _ _) as [[n1 c1] err]; run.
    eexists. rewrite <- !app_assoc. split; done. }
  destruct clientType;
    [change (bool_decide (ClientTypeNormal = ClientTypeNormal)) with true
    |change (bool_decide (ClientTypeNotification = ClientTypeNormal)) with false];
  destruct (0 <? length changedKeys)%nat eqn:Hlen;
  destruct (StringInSlice "vlan" changedKeys || StringInSlice "parent" changedKeys);
  run; unfold checkParentUse; run.
  all: try (destruct (IsUsed (net s) (cluster s)) as [[|] [?|]]; run).
  all: repeat (observe_step Stop_observed Start_observed; run).
  all: repeat match goal with H : trace _ = _ |- _ => rewrite H; clear H end.
  all: rewrite <- ?app_assoc; eexists; (split; [reflexivity|]).
  all: rewrite ?checks_app.
  all: repeat match goal with H : checks _ = [] |- _ => rewrite H; clear H end.
  all: reflexivity.
Qed.

(** X11.  An [Update] that changes neither parent nor vlan never stops
    the network and makes no check: on a record that is not pending it
    passes the new configuration to [n.common.update] as submitted, and
    calls [Start], without a [Stop] before it, exactly when that update
    returned no error. *)
Theorem Update_restarts_without_Stop s newNetwork targetNode clientType
    changedKeys oldNetwork :
  n_status (net s) ≠ NetworkStatusPending →
  n_localStatus (net s) ≠ NetworkStatusPending →
  configChanged (net s) newNetwork = (true, changedKeys, oldNetwork, None) →
  "vlan" ∉ changedKeys → "parent" ∉ changedKeys →
  let '(err, s') := Update newNetwork targetNode clientType s in
  ∃ calls,
    trace s' = trace s ++ LogDebug "Update"
                 :: CallCommonUpdate newNetwork targetNode clientType :: calls ∧
    checks calls = [] ∧
    debugLog calls =
      match (common_update newNetwork targetNode clientType (net s) (cluster s)).2 with
      | None => ["Start"]
      | Some _ => []
      end.
Proof.
  intros Hst Hlst Hcc Hvlan Hparent.
  assert (Hchanged :
    StringInSlice "vlan" changedKeys || StringInSlice "parent" changedKeys = false).
  { unfold StringInSlice.
    by rewrite (bool_decide_eq_false_2 _ Hvlan), (bool_decide_eq_false_2 _ Hparent). }
  unfold Update. run. rewrite Hcc. run.
  rewrite (bool_decide_eq_false_2 _ Hst), (bool_decide_eq_false_2 _ Hlst), Hchanged.
  rewrite andb_false_r. run.
  destruct (common_update newNetwork _ _ _ _) as [[n1 c1] [e|]]; run.
  - destruct (common_update oldNetwork _ _ _ _) as [[n2 c2] e2]; run.
    eexists. rewrite <- !app_assoc. split; done.
  - destruct (0 <? length changedKeys)%nat;
      destruct (bool_decide (clientType = ClientTypeNormal)); run.
    all: repeat (observe_step Stop_observed Start_observed; run).
    all: repeat match goal with H : trace _ = _ |- _ => rewrite H; clear H end.
    all: rewrite <- ?app_assoc; eexists; (split; [reflexivity|]).
    all: rewrite ?checks_app, ?debugLog_app.
    all: repeat match goal with H : checks _ = [] |- _ => rewrite H; clear H end.
    all: repeat match goal with H : debugLog _ = _ |- _ => rewrite H; clear H end.
    all: split; reflexivity.
Qed.

(** X12.  A network in use keeps its parent and its VLAN: with the normal
    client type, on a record that is not pending, an [Update] whose
    changed keys include parent or vlan is refused as "Cannot update
    network parent interface when in use" when [n.IsUsed] reports a use,
    and also when [n.IsUsed] returns an error, whose cause is not
    reported.  Nothing is scanned, stopped or written then. *)
Theorem Update_in_use_is_refused s newNetwork targetNode changedKeys oldNetwork
    isUsed uerr :
  n_status (net s) ≠ NetworkStatusPending →
  n_localStatus (net s) ≠ NetworkStatusPending →
  configChanged (net s) newNetwork = (true, changedKeys, oldNetwork, None) →
  "vlan" ∈ changedKeys ∨ "parent" ∈ changedKeys →
  IsUsed (net s) (cluster s) = (isUsed, uerr) →
  isUsed = true ∨ uerr ≠ None →
  Update newNetwork targetNode ClientTypeNormal s
  = (Some (Errorf "Cannot update network parent interface when in use" []),
     mkState (net s) (host s) (cluster s) (trace s ++ [LogDebug "Update"; CallIsUsed])).
Proof.
  intros Hst Hlst Hcc Hkeys Hused Hin.
  assert (Hchanged :
    StringInSlice "vlan" changedKeys || StringInSlice "parent" changedKeys = true).
  { unfold StringInSlice. destruct Hkeys as [H'|H']; rewrite (bool_decide_eq_true_2 _ H');
      [done|by rewrite orb_true_r]. }
  assert (Hrefuse : isUsed || bool_decide (uerr ≠ None) = true).
  { destruct Hin as [->|Hne]; [done|].
    rewrite (bool_decide_eq_true_2 _ Hne). by rewrite orb_true_r. }
  unfold Update. run. rewrite Hcc. run.
  rewrite (bool_decide_eq_false_2 _ Hst), (bool_decide_eq_false_2 _ Hlst), Hchanged.
  change (bool_decide (ClientTypeNormal = ClientTypeNormal)) with true.
  run. rewrite Hused. run. rewrite Hrefuse. run. by rewrite <- !app_assoc.
Qed.

(** [start] changes nothing of the receiver but its config, also when it
    fails. *)
Lemma start_net s : net (start s).2 = set_config (n_config (net (start s).2)) (net s).
Proof.
  assert (Hnet : net s = set_config (n_config (net s)) (net s)) by (by destruct (net s)).
  unfold start. run.
  destruct (VLANInterfaceCreate _ _ _ _ _) as [h1 [created [e|]]]; run; [done|].
  destruct (bool_decide (get (n_config (net s)) "mtu" ≠ "")); run.
  - destruct (SetMTU _ _ _) as [h2 [e|]]; run.
    { destruct created; run;
        [destruct (InterfaceRemove _ _) as [h3 e3]; run|]; done. }
    destruct (negb (IsTrue _)); run; [|done].
    destruct (UpdateNetwork _ _ _ _) as [c1 [e|]]; run; [|done].
    destruct created; run;
      [destruct (InterfaceRemove _ _) as [h3 e3]; run|]; done.
  - destruct (negb (IsTrue _)); run; [|done].
    destruct (UpdateNetwork _ _ _ _) as [c1 [e|]]; run; [|done].
    destruct created; run;
      [destruct (InterfaceRemove _ _) as [h3 e3]; run|]; done.
Qed.

(** A [Stop] that returns no error changes nothing of the receiver but
    its config, and writes that config to the database, once. *)
Lemma Stop_ok_net s s1 :
  Stop s = (None, s1) →
  net s1 = set_config (delete "volatile.last_state.created" (n_config (net s))) (net s) ∧
  ∃ calls, trace s1 = trace s ++ calls ∧
    persisted calls = [delete "volatile.last_state.created" (n_config (net s))].
Proof.
  unfold Stop. run.
  destruct (_ && _ && _); run.
  - destruct (InterfaceRemove _ _) as [h1 [e|]]; run; [done|].
    destruct (_ && _); run.
    + destruct (SetMTU _ _ _) as [h2 [e|]]; run; [done|].
      destruct (UpdateNetwork _ _ _ _) as [c1 [e|]]; run; [done|]. intros [= <-].
      split; [done|]. eexists. cbn [trace]. rewrite <- !app_assoc. split; done.
    + destruct (UpdateNetwork _ _ _ _) as [c1 [e|]]; run; [done|]. intros [= <-].
      split; [done|]. eexists. cbn [trace]. rewrite <- !app_assoc. split; done.
  - destruct (_ && _); run.
    + destruct (SetMTU _ _ _) as [h2 [e|]]; run; [done|].
      destruct (UpdateNetwork _ _ _ _) as [c1 [e|]]; run; [done|]. intros [= <-].
      split; [done|]. eexists. cbn [trace]. rewrite <- !app_assoc. split; done.
    + destruct (UpdateNetwork _ _ _ _) as [c1 [e|]]; run; [done|]. intros [= <-].
      split; [done|]. eexists. cbn [trace]. rewrite <- !app_assoc. split; done.
Qed.

(** X13.  [Start] and then [Stop] restore the receiver.  For a record
    whose config has no [volatile.last_state.created], when [Start] and
    the [Stop] after it return no error, the receiver is exactly as it
    was before [Start], and the config [Stop] wrote to the database, in
    its one call of [tx.UpdateNetwork], is the config from before
    [Start]. *)
Theorem Start_then_Stop_restores_config s s1 s2 :
  n_config (net s) !! "volatile.last_state.created" = None →
  Start s = (None, s1) →
  Stop s1 = (None, s2) →
  net s2 = net s ∧
  ∃ calls, trace s2 = trace s1 ++ calls ∧ persisted calls = [n_config (net s)].
Proof.
  intros Habsent HStart HStop.
  destruct (Start_result s) as (Herr & Hnet & _).
  rewrite HStart in Herr, Hnet. cbn [fst snd] in Herr, Hnet.
  pose proof (start_net s) as Hkeep.
  destruct (start s) as [err0 s0] eqn:Hs0. cbn [fst snd] in Herr, Hnet, Hkeep. subst err0.
  destruct (start_ok s s0 Hs0) as (h1 & created & _ & _ & _ & Hcfg).
  destruct (Stop_ok_net s1 s2 HStop) as (Hnet2 & calls & Htr & Hper).
  assert (Hback : delete "volatile.last_state.created" (n_config (net s1))
                  = n_config (net s)).
  { rewrite Hnet, Hcfg.
    destruct (IsTrue _); [by apply delete_id|by apply delete_insert_id]. }
  rewrite Hback in Hnet2, Hper. split.
  - rewrite Hnet2, Hnet, Hkeep. by destruct (net s).
  - by exists calls.
Qed.

End Lifecycle_properties.

Section Delete_properties.
Context {Host Cluster : Type}.
Context `{!InterfaceController Host, !ClusterStore Cluster, !CommonLifecycle Host Cluster}.

Implicit Types s : State Host Cluster.

(** X14.  [Delete] stops the network before it deletes it.  It runs
    [Stop] right after its log line, so that a VLAN interface the driver
    created is removed by the rule of [Stop].  When [Stop] fails,
    [Delete] returns that error and leaves everything as [Stop] left it:
    [n.common.delete] is not run.  When [Stop] returns no error,
    [n.common.delete] runs on the receiver as [Stop] left it, without
    [volatile.last_state.created], and [Delete] returns its result. *)
Theorem Delete_stops_before_deleting s clientType :
  let cfg := n_config (net s) in
  let hostName := GetHostDevice (get cfg "parent") (get cfg "vlan") in
  let s0 := mkState (net s) (host s) (cluster s) (trace s ++ [LogDebug "Delete"]) in
  let '(serr, s1) := Stop s0 in
  let '(err, s') := Delete clientType s in
  match serr with
  | Some e => err = Some e ∧ s' = s1
  | None =>
      n_config (net s1) !! "volatile.last_state.created" = None ∧
      common_delete clientType (net s1) (host s1) (cluster s1)
      = ((net s', host s', cluster s'), err) ∧
      trace s' = trace s1
  end ∧
  ∃ calls, trace s' = trace s ++ calls ∧
    debugLog calls = ["Delete"; "Stop"] ∧
    removals calls =
      (if bool_decide (get cfg "vlan" ≠ "")
          && IsTrue (get cfg "volatile.last_state.created")
          && InterfaceExists hostName (host s)
       then [hostName] else []).
Proof.
  intros cfg hostName s0. unfold Delete, callCommonDelete. run. fold s0.
  destruct (Stop_observed s0) as (calls & Htr & Hlog & _).
  destruct (Stop_removals s0) as (calls' & Htr' & Hrm).
  rewrite Htr in Htr'. apply app_inv_head in Htr'. subst calls'.
  pose proof (Stop_ok_config s0) as Hcfg.
  destruct (Stop s0) as [[e|] s1]; cbn [fst snd] in *.
  - split; [done|]. exists ([LogDebug "Delete"] ++ calls).
    rewrite Htr. unfold s0. cbn [trace]. rewrite <- app_assoc. split; [done|].
    rewrite debugLog_app, removals_app, Hlog, Hrm. done.
  - specialize (Hcfg s1 eq_refl).
    destruct (common_delete _ _ _ _) as [[[n' h'] c'] err] eqn:Hdel. cbn [net host cluster trace].
    split.
    + split; [rewrite Hcfg; apply lookup_delete_eq|]. done.
    + exists ([LogDebug "Delete"] ++ calls).
      rewrite Htr. unfold s0. cbn [trace]. rewrite <- app_assoc. split; [done|].
      rewrite debugLog_app, removals_app, Hlog, Hrm. done.
Qed.

End Delete_properties.

(** ** Properties of the node-local configuration *)

Section Node_properties.
Context {Tx Map Value : Type}.
Context `{!node.NodeTx Tx, !node.ConfigMap Map Value}.

Implicit Types c : @node.Config Tx Map.

(** The loop of [Patch] overrides the current values with the patch. *)
Lemma Patch_loop (patch values : gmap string Value) :
  map_fold (λ name value values, <[name := value]> values) values patch = patch ∪ values.
Proof.
  induction patch as [|name value patch Hfresh Hfold IH] using map_first_key_ind.
  - by rewrite map_fold_empty, (left_id_L ∅ (∪)).
  - rewrite map_fold_insert_first_key by done. rewrite IH.
    by rewrite insert_union_l.
Qed.

(** X15.  [Patch] is [Replace] with the current values as defaults: the
    values it submits hold, at every key of the patch, the value of the
    patch, and at every other key the value that [Dump] reports, when it
    reports one. *)
Theorem Patch_overrides_current_values (patch : gmap string Value) c :
  ∃ values,
    node.Patch patch c = node.Replace values c ∧
    ∀ name, values !! name = match patch !! name with
                             | Some value => Some value
                             | None => node.Dump c !! name
                             end.
Proof.
  exists (patch ∪ node.Dump c). split.
  - unfold node.Patch, node.Replace. by rewrite Patch_loop.
  - intros name. rewrite lookup_union.
    destruct (patch !! name), (node.Dump c !! name); done.
Qed.

(** X16.  [Patch] persists only what [Change] accepted.  When [Change]
    rejects the merged values, [Patch] returns that error as it is and
    the transaction is not written; when the transaction fails to persist
    the changed keys, the error is wrapped as "Cannot persist local
    configuration changes".  On either error the map returned is empty,
    and in every case the map in memory is as [Change] left it, also when
    the changed keys could not be persisted. *)
Theorem Patch_persists_what_Change_accepted (patch : gmap string Value) c :
  let '(m1, (changed, cerr)) := node.Map_Change (patch ∪ node.Dump c) (node.m c) in
  let '(tx1, perr) := node.UpdateConfig changed (node.tx c) in
  let '((result, err), c') := node.Patch patch c in
  node.m c' = m1 ∧
  match cerr, perr with
  | Some e, _ => err = Some e ∧ result = ∅ ∧ node.tx c' = node.tx c
  | None, Some e =>
      err = Some (Wrapf e "Cannot persist local configuration changes" []) ∧
      result = ∅ ∧ node.tx c' = tx1
  | None, None => err = None ∧ result = changed ∧ node.tx c' = tx1
  end.
Proof.
  unfold node.Patch, node.update. rewrite Patch_loop.
  destruct (node.Map_Change _ _) as [m1 [changed [e|]]]; cbn.
  - by destruct (node.UpdateConfig _ _) as [tx1 perr].
  - by destruct (node.UpdateConfig _ _) as [tx1 [e|]].
Qed.

End Node_properties.

(** ** The further properties at work *)

(** The scan of the database fails: [Create] and an [Update] to VLAN 30
    both report the failure, wrapped. *)
Lemma scan_failure_witness :
  GetCreatedNetworks (cluster More.scan_fails) = inl (External "Failed to query networks") ∧
  (Create ClientTypeNormal More.scan_fails).1
  = Some (Wrapf (External "Failed to query networks") "Failed to load all networks" []) ∧
  (Update Ex.to_vlan30 "" ClientTypeNormal More.scan_fails).1
  = Some (Wrapf (External "Failed to query networks") "Failed to load all networks" []).
Proof.
  assert (Hget : GetCreatedNetworks (cluster More.scan_fails)
                 = inl (External "Failed to query networks")) by reflexivity.
  destruct (scan_failure_is_reported More.scan_fails _ Hget) as [HC HU].
  split; [exact Hget|]. split; [rewrite HC; reflexivity|].
  rewrite (HU Ex.to_vlan30 "" ["vlan"] (api.mkNetworkPut Ex.vlan10 "")).
  - reflexivity.
  - discriminate.
  - discriminate.
  - vm_compute; reflexivity.
  - left. apply list_elem_of_here.
  - vm_compute; reflexivity.
Defined.

(** [physical0] on VLAN 10 of [eth0] and the untagged [physical2] on
    [eth0] exclude each other. *)
Lemma parent_clash_witness :
  api.Name (Ex.network "physical0" "eth0" "10") ≠ api.Name More.rival ∧
  scanProjects "physical0" Ex.vlan10 {[project_Default := {[4 := More.rival]}]} = true ∧
  scanProjects "physical2" (api.Config More.rival)
    {[project_Default := {[1 := Ex.network "physical0" "eth0" "10"]}]} = true.
Proof.
  assert (Hne : api.Name (Ex.network "physical0" "eth0" "10") ≠ api.Name More.rival)
    by discriminate.
  split; [exact Hne|].
  assert (Hfirst : scanProjects "physical0" Ex.vlan10
                     {[project_Default := {[4 := More.rival]}]} = true)
    by (vm_compute; reflexivity).
  split; [exact Hfirst|].
  exact (eq_trans (eq_sym (parent_clash_is_symmetric (Ex.network "physical0" "eth0" "10")
                             More.rival 1 4 Hne)) Hfirst).
Defined.

(** The started [physical0] is started again: nothing is written. *)
Lemma start_keeps_witness :
  IsTrue (get (n_config (net Ex.started)) Ex.volatile) = true ∧
  net (start Ex.started).2 = net Ex.started ∧
  cluster (start Ex.started).2 = cluster Ex.started.
Proof.
  assert (Hv : IsTrue (get (n_config (net Ex.started)) Ex.volatile) = true)
    by (vm_compute; reflexivity).
  split; [exact Hv|].
  pose proof (start_keeps_recorded_creation Ex.started Hv) as Hstart.
  destruct (start Ex.started) as [err s']. cbn [fst snd] in *.
  destruct Hstart as (Hnet & Hcluster & _).
  split; [exact Hnet|exact Hcluster].
Defined.

(** [physical0] is started on a host without [eth0.10]: the interface is
    created and recorded as created. *)
Lemma start_records_witness :
  IsTrue (get (n_config (net Ex.fresh)) Ex.volatile) = false ∧
  start Ex.fresh = (None, (start Ex.fresh).2) ∧
  n_config (net (start Ex.fresh).2) = Ex.vlan10_created ∧
  ∃ calls, trace (start Ex.fresh).2 = trace Ex.fresh ++ calls ∧
    persisted calls = [Ex.vlan10_created].
Proof.
  assert (Hv : IsTrue (get (n_config (net Ex.fresh)) Ex.volatile) = false)
    by (vm_compute; reflexivity).
  assert (Hok : start Ex.fresh = (None, (start Ex.fresh).2)) by (vm_compute; reflexivity).
  split; [exact Hv|]. split; [exact Hok|].
  destruct (start_records_whether_it_created Ex.fresh _ Hv Hok)
    as (h1 & created & Hcreate & Hnet & _ & calls & Htr & Hper).
  assert (Hcfg : n_config (net (start Ex.fresh).2) = Ex.vlan10_created)
    by (vm_compute; reflexivity).
  split; [exact Hcfg|].
  exists calls. split; [exact Htr|]. rewrite <- Hcfg. exact Hper.
Defined.

(** [physical0] is started on a host without [eth0.10] and stopped:
    [eth0.10] is removed. *)
Lemma Stop_removes_created_witness :
  HostIdempotent Sim.Host ∧
  get (n_config (net Ex.fresh)) "vlan" ≠ "" ∧
  VLANInterfaceCreate "eth0" "eth0.10" "10" false (host Ex.fresh)
  = (Ex.tagged [], (true, None)) ∧
  Start Ex.fresh = (None, (Start Ex.fresh).2) ∧
  ∃ calls, trace (Stop (Start Ex.fresh).2).2 = trace (Start Ex.fresh).2 ++ calls ∧
    removals calls = ["eth0.10"].
Proof.
  assert (Hvlan : get (n_config (net Ex.fresh)) "vlan" ≠ "") by discriminate.
  assert (Hcreate : VLANInterfaceCreate "eth0" "eth0.10" "10" false (host Ex.fresh)
                    = (Ex.tagged [], (true, None))) by (vm_compute; reflexivity).
  assert (Hok : Start Ex.fresh = (None, (Start Ex.fresh).2)) by (vm_compute; reflexivity).
  split; [exact Sim_HostIdempotent|]. split; [exact Hvlan|]. split; [exact Hcreate|].
  split; [exact Hok|].
  exact (Stop_removes_what_Start_created Ex.fresh _ _ Sim_HostIdempotent Hvlan Hcreate Hok).
Defined.

(** [physical0] is started on a host where [eth0.10] exists already, and
    stopped: [eth0.10] stays. *)
Lemma Stop_keeps_found_witness :
  IsTrue "false" = false ∧
  IsTrue (get (n_config (net More.found)) Ex.volatile) = false ∧
  VLANInterfaceCreate "eth0" "eth0.10" "10" false (host More.found)
  = (Ex.tagged [], (false, None)) ∧
  Start More.found = (None, (Start More.found).2) ∧
  ∃ calls, trace (Stop (Start More.found).2).2 = trace (Start More.found).2 ++ calls ∧
    removals calls = [].
Proof.
  assert (Hfalse : IsTrue "false" = false) by reflexivity.
  assert (Hv : IsTrue (get (n_config (net More.found)) Ex.volatile) = false)
    by (vm_compute; reflexivity).
  assert (Hcreate : VLANInterfaceCreate "eth0" "eth0.10" "10" false (host More.found)
                    = (Ex.tagged [], (false, None))) by (vm_compute; reflexivity).
  assert (Hok : Start More.found = (None, (Start More.found).2)) by (vm_compute; reflexivity).
  split; [exact Hfalse|]. split; [exact Hv|]. split; [exact Hcreate|]. split; [exact Hok|].
  exact (Stop_keeps_what_Start_found More.found _ _ Hfalse Hv Hcreate Hok).
Defined.

(** The started [physical0] is stopped twice: the second [Stop] removes
    nothing. *)
Lemma Stop_twice_witness :
  IsTrue "" = false ∧
  Stop Ex.started = (None, (Stop Ex.started).2) ∧
  n_config (net (Stop Ex.started).2) !! Ex.volatile = None ∧
  ∃ calls, trace (Stop (Stop Ex.started).2).2 = trace (Stop Ex.started).2 ++ calls ∧
    removals calls = [].
Proof.
  assert (Hempty : IsTrue "" = false) by reflexivity.
  assert (Hok : Stop Ex.started = (None, (Stop Ex.started).2)) by (vm_compute; reflexivity).
  split; [exact Hempty|]. split; [exact Hok|].
  destruct (Stop_twice_removes_once Ex.started _ Hempty Hok) as (Hgone & _ & Hcalls).
  split; [exact Hgone|exact Hcalls].
Defined.

(** [physical0] with an MTU of 9000 on [eth0.10] is stopped: [eth0.10]
    is removed, and no MTU is reset. *)
Lemma Stop_resets_MTU_witness :
  RemoveRemoves Sim.Host ∧
  ∃ calls, trace (Stop More.jumbo).2 = trace More.jumbo ++ calls ∧
    removals calls = ["eth0.10"] ∧
    ∀ name mtu, CallSetMTU name mtu ∉ calls.
Proof.
  split; [exact Sim_RemoveRemoves|].
  pose proof (Stop_resets_MTU_only_of_what_remains More.jumbo Sim_RemoveRemoves) as Hstop.
  assert (Hrm : removals (trace (Stop More.jumbo).2) = ["eth0.10"])
    by (vm_compute; reflexivity).
  destruct (Stop More.jumbo) as [err s']. cbn [fst snd] in *.
  destruct Hstop as (calls & Htr & Hor).
  exists calls. split; [exact Htr|].
  rewrite Htr in Hrm. change (trace More.jumbo) with (@nil Call) in Hrm.
  rewrite app_nil_l in Hrm. split; [exact Hrm|].
  destruct Hor as [Hnone|Hno]; [|exact Hno].
  rewrite Hnone in Hrm. discriminate Hrm.
Defined.

(** The started [physical0] gets a new description: it is started again,
    and never stopped. *)
Lemma Update_restarts_witness :
  n_status (net Ex.started) ≠ NetworkStatusPending ∧
  n_localStatus (net Ex.started) ≠ NetworkStatusPending ∧
  configChanged (net Ex.started) More.described
  = (true, [], api.mkNetworkPut Ex.vlan10_created "", None) ∧
  ("vlan" ∉ @nil string) ∧ ("parent" ∉ @nil string) ∧
  ∃ calls,
    trace (Update More.described "" ClientTypeNormal Ex.started).2
    = trace Ex.started ++ LogDebug "Update"
        :: CallCommonUpdate More.described "" ClientTypeNormal :: calls ∧
    checks calls = [] ∧ debugLog calls = ["Start"].
Proof.
  assert (Hst : n_status (net Ex.started) ≠ NetworkStatusPending) by discriminate.
  assert (Hlst : n_localStatus (net Ex.started) ≠ NetworkStatusPending) by discriminate.
  assert (Hcc : configChanged (net Ex.started) More.described
                = (true, [], api.mkNetworkPut Ex.vlan10_created "", None))
    by (vm_compute; reflexivity).
  assert (Hvlan : "vlan" ∉ @nil string) by apply not_elem_of_nil.
  assert (Hparent : "parent" ∉ @nil string) by apply not_elem_of_nil.
  split; [exact Hst|]. split; [exact Hlst|]. split; [exact Hcc|].
  split; [exact Hvlan|]. split; [exact Hparent|].
  pose proof (Update_restarts_without_Stop Ex.started More.described "" ClientTypeNormal
                _ _ Hst Hlst Hcc Hvlan Hparent) as Hupd.
  destruct (Update More.described "" ClientTypeNormal Ex.started) as [err s'].
  cbn [fst snd] in *.
  destruct Hupd as (calls & Htr & Hck & Hlog).
  exists calls. split; [exact Htr|]. split; [exact Hck|]. exact Hlog.
Defined.

(** The started [physical0] is in use: its move to VLAN 30 is refused. *)
Lemma Update_in_use_witness :
  n_status (net More.in_use) ≠ NetworkStatusPending ∧
  n_localStatus (net More.in_use) ≠ NetworkStatusPending ∧
  configChanged (net More.in_use) Ex.to_vlan30
  = (true, [Ex.volatile; "vlan"], api.mkNetworkPut Ex.vlan10_created "", None) ∧
  ("vlan" ∈ [Ex.volatile; "vlan"] ∨ "parent" ∈ [Ex.volatile; "vlan"]) ∧
  IsUsed (net More.in_use) (cluster More.in_use) = (true, None) ∧
  Update Ex.to_vlan30 "" ClientTypeNormal More.in_use
  = (Some (Errorf "Cannot update network parent interface when in use" []),
     mkState (net More.in_use) (host More.in_use) (cluster More.in_use)
             [LogDebug "Update"; CallIsUsed]).
Proof.
  assert (Hst : n_status (net More.in_use) ≠ NetworkStatusPending) by discriminate.
  assert (Hlst : n_localStatus (net More.in_use) ≠ NetworkStatusPending) by discriminate.
  assert (Hcc : configChanged (net More.in_use) Ex.to_vlan30
                = (true, [Ex.volatile; "vlan"], api.mkNetworkPut Ex.vlan10_created "", None))
    by (vm_compute; reflexivity).
  assert (Hkeys : "vlan" ∈ [Ex.volatile; "vlan"] ∨ "parent" ∈ [Ex.volatile; "vlan"]).
  { left. apply list_elem_of_further, list_elem_of_here. }
  assert (Hused : IsUsed (net More.in_use) (cluster More.in_use) = (true, None))
    by (vm_compute; reflexivity).
  split; [exact Hst|]. split; [exact Hlst|]. split; [exact Hcc|]. split; [exact Hkeys|].
  split; [exact Hused|].
  exact (Update_in_use_is_refused More.in_use Ex.to_vlan30 "" _ _ _ _
           Hst Hlst Hcc Hkeys Hused (or_introl eq_refl)).
Defined.

(** [physical0] is started and stopped: its config is [vlan10] again, in
    memory and in the database. *)
Lemma Start_then_Stop_witness :
  n_config (net Ex.fresh) !! Ex.volatile = None ∧
  Start Ex.fresh = (None, (Start Ex.fresh).2) ∧
  Stop (Start Ex.fresh).2 = (None, (Stop (Start Ex.fresh).2).2) ∧
  net (Stop (Start Ex.fresh).2).2 = net Ex.fresh ∧
  ∃ calls, trace (Stop (Start Ex.fresh).2).2 = trace (Start Ex.fresh).2 ++ calls ∧
    persisted calls = [Ex.vlan10].
Proof.
  assert (Habsent : n_config (net Ex.fresh) !! Ex.volatile = None)
    by (vm_compute; reflexivity).
  assert (Hstart : Start Ex.fresh = (None, (Start Ex.fresh).2)) by (vm_compute; reflexivity).
  assert (Hstop : Stop (Start Ex.fresh).2 = (None, (Stop (Start Ex.fresh).2).2))
    by (vm_compute; reflexivity).
  split; [exact Habsent|]. split; [exact Hstart|]. split; [exact Hstop|].
  exact (Start_then_Stop_restores_config Ex.fresh _ _ Habsent Hstart Hstop).
Defined.
